(** * llvm-select: the version model of [llvm-select.py]

    A shallow embedding of [LLVMVersionDetails] (version-string parser,
    canonical string form, archive extension, archive table, archive file
    names and URLs) and of the control flow of [LLVMBuilder.build] and of the
    script's entry point, followed by the properties of the specification
    proved (or refuted) against them.

    Conventions of the embedding.
    - A Python [str] is a Rocq [string]: a sequence of code points below 256.
      Python integers are unbounded, hence [Z].
    - A Python call that may raise returns a [pyresult]; [try]/[except]
      is a match on it.  [CommandFailed command code] stands for the
      [Exception] that [Utility.runOrFail] raises, whose message is built
      from the command and its exit code.
    - [platform.system()] is constant during a run; it is the section
      variable [platform_system].
    - The built-ins [int], [str.split], [str] are not part of the repository;
      they are embedded below after CPython (the grammar of [int] is that of
      Python 3.6 and later: surrounding white space, an optional sign, decimal
      digits with single underscores between digits).  The limit on the number
      of digits that Python 3.11 adds to [int] and [str] is not modelled. *)

From Stdlib Require Import ZArith NArith List String Ascii Bool Lia.
Import ListNotations.

Open Scope string_scope.
Open Scope Z_scope.

(** ** Exceptions and results *)

Inductive exn : Type :=
| ValueError
| IndexError
| KeyError (key : string)
| TypeError
| AttributeError
| OSError (what : string)
| CommandFailed (command : list string) (returncode : Z)
| CommandNotAvailableError (command : string)
| SystemExit (code : Z).

Inductive pyresult (A : Type) : Type :=
| Returned (a : A)
| Raised (e : exn).
Arguments Returned {A} a.
Arguments Raised {A} e.

Definition bind {A B : Type} (r : pyresult A) (k : A -> pyresult B) : pyresult B :=
  match r with
  | Returned a => k a
  | Raised e => Raised e
  end.

Declare Scope py_scope.
Delimit Scope py_scope with py.
Notation "x <- c ;; k" := (bind c (fun x => k))
  (at level 61, c at next level, right associativity) : py_scope.
Open Scope py_scope.

(** [[f(x) for x in l]] for a fallible [f]: the first exception ends the
    comprehension. *)
Fixpoint comprehension {A B : Type} (f : A -> pyresult B) (l : list A)
  : pyresult (list B) :=
  match l with
  | [] => Returned []
  | x :: xs => y <- f x ;; ys <- comprehension f xs ;; Returned (y :: ys)
  end.

(** [l[i]] on a Python list. *)
Definition index {A : Type} (l : list A) (i : nat) : pyresult A :=
  match nth_error l i with
  | Some a => Returned a
  | None => Raised IndexError
  end.

(** ** Built-ins on strings *)

Definition code (c : ascii) : N := N_of_ascii c.

Definition is_digit (c : ascii) : bool :=
  ((48 <=? code c) && (code c <=? 57))%N.

Definition digit_value (c : ascii) : N := (code c - 48)%N.

(** White space skipped by [int]: the six ASCII characters of [Py_ISSPACE],
    and, below 256, the two non-ASCII characters NEL and NBSP, which [int]
    first turns into blanks. *)
Definition is_space (c : ascii) : bool :=
  (((9 <=? code c) && (code c <=? 13)) || (code c =? 32)
   || (code c =? 133) || (code c =? 160))%N.

Definition underscore : ascii := "_"%char.

Fixpoint skip_space (s : string) : string :=
  match s with
  | String c r => if is_space c then skip_space r else s
  | EmptyString => s
  end.

Fixpoint all_space (s : string) : bool :=
  match s with
  | String c r => is_space c && all_space r
  | EmptyString => true
  end.

(** The digit scanner of [int], entered after a first digit: [acc] is the
    value read so far, [prev] tells whether the previous character was an
    underscore.  It stops at the first character that is neither a digit nor
    an underscore and fails on a doubled or trailing underscore. *)
Fixpoint scan (acc : N) (prev : bool) (s : string) : option (N * string) :=
  match s with
  | String c r =>
      if is_digit c then scan (10 * acc + digit_value c)%N false r
      else if Ascii.eqb c underscore then
             if prev then None else scan acc true r
           else if prev then None else Some (acc, s)
  | EmptyString => if prev then None else Some (acc, s)
  end.

Definition scan_digits (s : string) : option (N * string) :=
  match s with
  | String c r => if is_digit c then scan (digit_value c) false r else None
  | EmptyString => None
  end.

(** [int(s)] in base ten. *)
Definition int (s : string) : pyresult Z :=
  let s1 := skip_space s in
  let '(negative, s2) :=
    match s1 with
    | String "+" r => (false, r)
    | String "-" r => (true, r)
    | _ => (false, s1)
    end in
  match scan_digits s2 with
  | Some (n, rest) =>
      if all_space rest
      then Returned (if negative then - Z.of_N n else Z.of_N n)
      else Raised ValueError
  | None => Raised ValueError
  end.

(** [s.split(sep)] for a one-character separator: never empty. *)
Fixpoint split (sep : ascii) (s : string) : list string :=
  match s with
  | EmptyString => [EmptyString]
  | String c r =>
      if Ascii.eqb c sep then EmptyString :: split sep r
      else match split sep r with
           | x :: xs => String c x :: xs
           | [] => [String c EmptyString]
           end
  end.

(** [str(n)] for an integer: decimal digits, most significant first. *)
Definition digit_char (d : N) : ascii := ascii_of_N (48 + d).

Fixpoint str_digits (fuel : nat) (n : N) (acc : string) : string :=
  match fuel with
  | O => acc
  | S f =>
      let acc' := String (digit_char (n mod 10)) acc in
      if (n / 10 =? 0)%N then acc' else str_digits f (n / 10)%N acc'
  end.

Definition str_N (n : N) : string :=
  str_digits (S (N.to_nat (N.log2 n))) n EmptyString.

Definition str (z : Z) : string :=
  if z <? 0 then String "-" (str_N (Z.to_N (- z))) else str_N (Z.to_N z).

(** ** Dictionaries

    A Python [dict] keeps its keys in insertion order; assigning to a key
    that is present keeps its place. *)

Definition dict (V : Type) : Type := list (string * V).

Fixpoint dict_set {V : Type} (d : dict V) (k : string) (v : V) : dict V :=
  match d with
  | [] => [(k, v)]
  | (k', v') :: r =>
      if String.eqb k' k then (k', v) :: r else (k', v') :: dict_set r k v
  end.

Fixpoint dict_get {V : Type} (d : dict V) (k : string) : pyresult V :=
  match d with
  | [] => Raised (KeyError k)
  | (k', v) :: r => if String.eqb k' k then Returned v else dict_get r k
  end.

Definition keys {V : Type} (d : dict V) : list string := map fst d.

(** ** [LLVMVersionDetails] *)

Record LLVMVersionDetails : Type := {
  major : Z;
  minor : Z;
  revision : option Z;
  extension : string;
  tarballs : dict (option string)
}.

Definition in_list (s : string) (l : list string) : bool :=
  existsb (String.eqb s) l.

Section VersionDetails.

(** The value of [platform.system()]. *)
Variable platform_system : string.

(** [LLVMVersionDetails.__str__] (lines 108-112). *)
Definition __str__ (self : LLVMVersionDetails) : string :=
  let s := str (major self) ++ "." ++ str (minor self) in
  match revision self with
  | Some r => s ++ "." ++ str r
  | None => s
  end.

(** [_tarballVersionString] (lines 115-122). *)
Definition _tarballVersionString (self : LLVMVersionDetails)
    (tarballName : string) : string :=
  if in_list tarballName ["compiler-rt"; "libcxx"]
     && ((major self =? 3) && (minor self =? 4))
  then str (major self) ++ "." ++ str (minor self)
  else __str__ self.

(** [tarballFilename] (lines 132-137); an unknown name is a [KeyError]. *)
Definition tarballFilename (self : LLVMVersionDetails)
    (tarballName : string) : pyresult (option string) :=
  tarball <- dict_get (tarballs self) tarballName ;;
  match tarball with
  | Some name =>
      Returned (Some (name ++ "-" ++ _tarballVersionString self tarballName
                           ++ extension self))
  | None => Returned None
  end.

(** [tarballURL] (lines 125-129). *)
Definition tarballURL (self : LLVMVersionDetails)
    (tarballName : string) : pyresult (option string) :=
  tarball <- dict_get (tarballs self) tarballName ;;
  match tarball with
  | None => Returned None
  | Some _ =>
      filename <- tarballFilename self tarballName ;;
      match filename with
      | Some f =>
          Returned (Some ("http://llvm.org/releases/"
                            ++ _tarballVersionString self tarballName
                            ++ "/" ++ f))
      | None => Raised TypeError
      end
  end.

(** [_determineExtenion] (lines 178-191). *)
Definition _determineExtenion (major minor : Z) : string :=
  if (major =? 2) && (minor >? 6) then ".tgz"
  else if ((major =? 2) && (minor =? 6)) || ((major =? 3) && (minor =? 0))
       then ".tar.gz"
  else if (major =? 3) && (minor <? 5) then ".src.tar.gz"
  else ".src.tar.xz".

(** [x == None] *)
Definition is_None {A : Type} (o : option A) : bool :=
  match o with None => true | Some _ => false end.

(** [_listTarballs] (lines 194-217). *)
Definition _listTarballs (major minor : Z) (revision : option Z)
  : dict (option string) :=
  let tarballs := [] in
  let tarballs := dict_set tarballs "llvm" (Some "llvm") in
  let tarballs :=
    if (major <? 3)
       || ((major =? 3)
           && ((minor <? 3) || ((minor =? 4) && is_None revision)))
    then dict_set tarballs "clang" (Some "clang")
    else dict_set tarballs "clang" (Some "cfe") in
  let tarballs := dict_set tarballs "compiler-rt" None in
  let tarballs :=
    if negb (String.eqb platform_system "Windows")
       && ((major >? 3) || ((major =? 3) && (minor >=? 1)))
    then dict_set tarballs "compiler-rt" (Some "compiler-rt")
    else tarballs in
  let tarballs := dict_set tarballs "libcxx" None in
  let tarballs :=
    if String.eqb platform_system "Darwin"
       && ((major >? 3) || ((major =? 3) && (minor >=? 3)))
    then dict_set tarballs "libcxx" (Some "libcxx")
    else tarballs in
  tarballs.

(** [__init__] (lines 102-106), which ends in [_populateFields]
    (lines 173-175). *)
Definition __init__ (major minor : Z) (revision : option Z)
  : LLVMVersionDetails :=
  {| major := major; minor := minor; revision := revision;
     extension := _determineExtenion major minor;
     tarballs := _listTarballs major minor revision |}.

(** [fromVersionString] (lines 139-170).  The bare [except] around the
    comprehension takes every exception of [int]. *)
Definition fromVersionString (versionString : string)
  : pyresult (option LLVMVersionDetails) :=
  match comprehension int (split "." versionString) with
  | Raised _ => Returned None
  | Returned version =>
      if (List.length version <? 2)%nat || (3 <? List.length version)%nat
      then Returned None
      else if existsb (fun v => v <? 0) version then Returned None
      else
        v0 <- index version 0 ;;
        v1 <- index version 1 ;;
        if (v0 <? 2) || ((v0 =? 2) && (v1 <? 6)) then Returned None
        else if (List.length version =? 3)%nat
                && ((v0 <? 3) || ((v0 =? 3) && (v1 <? 4)))
             then Returned None
        else if (List.length version =? 2)%nat
                && ((v0 >? 3) || ((v0 =? 3) && (v1 >? 4)))
             then Returned None
        else
          rev <- (if (List.length version =? 3)%nat
                  then v2 <- index version 2 ;; Returned (Some v2)
                  else Returned None) ;;
          Returned (Some (__init__ v0 v1 rev))
  end.

End VersionDetails.

(** ** Calls into the operating system

    Code that acts on the outside world is a [prog]: a tree whose nodes are
    the calls made ([event]) and whose branches are the possible answers,
    an exception included. *)

Record Popen_args : Type := {
  command : list string;
  stdout_piped : bool;
  stdin_piped : bool;
  universal_newlines : bool;
  cwd : option string;
  env : option (dict string)
}.

Record process : Type := {
  returncode : Z;
  stdout : option string;
  stderr : option string
}.

Inductive event : Type -> Type :=
| os_getcwd : event string
| os_makedirs (path : string) : event unit
| os_environ_copy : event (dict string)
| os_path_exists (path : string) : event bool
| os_path_lexists (path : string) : event bool
| os_path_isdir (path : string) : event bool
| os_path_dirname (path : string) : event string
| os_unlink (path : string) : event unit
| shutil_rmtree (path : string) (onerror_handler : bool) : event unit
| shutil_copy2 (src dst : string) : event unit
| Popen_communicate (args : Popen_args) (input : option string) : event process
| print (line : string) : event unit.

Inductive prog (A : Type) : Type :=
| Ret (a : A)
| Throw (e : exn)
| Call (X : Type) (ev : event X) (k : pyresult X -> prog A).
Arguments Ret {A} a.
Arguments Throw {A} e.
Arguments Call {A X} ev k.

Fixpoint pbind {A B : Type} (p : prog A) (f : A -> prog B) : prog B :=
  match p with
  | Ret a => f a
  | Throw e => Throw e
  | Call ev k => Call ev (fun r => pbind (k r) f)
  end.

Declare Scope prog_scope.
Delimit Scope prog_scope with prog.
Notation "x <~ c ;; k" := (pbind c (fun x => k))
  (at level 61, c at next level, right associativity) : prog_scope.
Notation "c ;;; k" := (pbind c (fun _ => k))
  (at level 61, right associativity) : prog_scope.
Open Scope prog_scope.

(** A call whose exception, if any, propagates. *)
Definition call {X : Type} (ev : event X) : prog X :=
  Call ev (fun r => match r with Returned x => Ret x | Raised e => Throw e end).

Definition lift {A : Type} (r : pyresult A) : prog A :=
  match r with Returned a => Ret a | Raised e => Throw e end.

Fixpoint for_each {A : Type} (l : list A) (body : A -> prog unit) : prog unit :=
  match l with
  | [] => Ret tt
  | x :: xs => body x ;;; for_each xs body
  end.

(** The outside world: it answers every call and may change with it. *)
Record world : Type := {
  state : Type;
  answer : forall X : Type, state -> event X -> pyresult X * state
}.

Definition action : Type := { X : Type & event X }.
Definition act {X : Type} (ev : event X) : action := existT _ X ev.

Fixpoint run {A : Type} (w : world) (s : state w) (p : prog A)
  : list action * pyresult A :=
  match p with
  | Ret a => ([], Returned a)
  | Throw e => ([], Raised e)
  | Call ev k =>
      let '(r, s') := answer w _ s ev in
      let '(t, res) := run w s' (k r) in
      (act ev :: t, res)
  end.

(** [sep.join(l)] *)
Fixpoint join (sep : string) (l : list string) : string :=
  match l with
  | [] => ""
  | [x] => x
  | x :: xs => x ++ sep ++ join sep xs
  end.

(** [str(x)] for a value that is a string or [None]. *)
Definition str_opt (o : option string) : string :=
  match o with Some s => s | None => "None" end.

(** [d.get(k, default)] *)
Definition dict_get_default {V : Type} (d : dict V) (k : string) (default : V) : V :=
  match dict_get d k with Returned v => v | Raised _ => default end.

(** White space of [str.strip()], below 256. *)
Definition isspace (c : ascii) : bool :=
  (((9 <=? code c) && (code c <=? 13)) || ((28 <=? code c) && (code c <=? 32))
   || (code c =? 133) || (code c =? 160))%N.

Fixpoint lstrip (s : string) : string :=
  match s with
  | String c r => if isspace c then lstrip r else s
  | EmptyString => s
  end.

Fixpoint rstrip (s : string) : string :=
  match s with
  | String c r =>
      match rstrip r with
      | EmptyString => if isspace c then EmptyString else String c EmptyString
      | r' => String c r'
      end
  | EmptyString => EmptyString
  end.

Definition strip (s : string) : string := rstrip (lstrip s).

Definition dquote : string := String (ascii_of_nat 34) EmptyString.

(** ** [Utility], [LLVMBuilder] and the entry point *)

Section Script.

(** The values of [platform.system()] and of [os.sep]. *)
Variable platform_system : string.
Variable os_sep : string.

Definition Windows : bool := String.eqb platform_system "Windows".

(** [Utility._rmtree] (lines 45-51); the error handler that makes a path
    writable and retries is the flag of [shutil_rmtree]. *)
Definition _rmtree (root : string) : prog unit :=
  present <~ call (os_path_exists root) ;;
  if present then call (shutil_rmtree root true) else Ret tt.

(** [Utility.removeIfExists] (lines 55-63). *)
Definition removeIfExists (item : string) : prog unit :=
  present <~ call (os_path_lexists item) ;;
  if present then
    isdir <~ call (os_path_isdir item) ;;
    if isdir then
      if Windows then _rmtree item else call (shutil_rmtree item false)
    else call (os_unlink item)
  else Ret tt.

(** [Utility.commandSucceeded] (lines 67-73): the bare [except] turns every
    exception into [False]. *)
Definition commandSucceeded (command : list string) : prog bool :=
  Call (Popen_communicate
          {| command := command; stdout_piped := true; stdin_piped := false;
             universal_newlines := false; cwd := None; env := None |} None)
       (fun r => match r with
                 | Returned proc => Ret (returncode proc =? 0)
                 | Raised _ => Ret false
                 end).

(** [Utility.runOrFail] (lines 77-92). *)
Definition runOrFail (command : list string) (cwd : option string)
    (env : option (dict string)) (input : option string)
    (showOutput suppressOutputOnError : bool) : prog unit :=
  proc <~ call (Popen_communicate
                  {| command := command; stdout_piped := negb showOutput;
                     stdin_piped := true; universal_newlines := true;
                     cwd := cwd; env := env |} input) ;;
  if negb (returncode proc =? 0) then
    (if negb showOutput && negb suppressOutputOnError
     then call (print (str_opt (stdout proc))) ;;;
          call (print (str_opt (stderr proc)))
     else Ret tt) ;;;
    Throw (CommandFailed command (returncode proc))
  else Ret tt.

(** [LLVMBuilder.CmakeBuildTypes] (line 223). *)
Definition CmakeBuildTypes : list string :=
  ["Release"; "Debug"; "RelWithDebInfo"; "MinSizeRel"].

(** [LLVMBuilder.cleanupFiles] (lines 230-235). *)
Definition cleanupFiles (version : LLVMVersionDetails) : prog unit :=
  for_each (keys (tarballs version)) (fun tarballName =>
    tarball <~ lift (tarballFilename version tarballName) ;;
    match tarball with
    | Some tarball =>
        here <~ call os_getcwd ;;
        removeIfExists (here ++ "/" ++ tarball) ;;;
        here <~ call os_getcwd ;;
        removeIfExists (here ++ "/" ++ tarballName ++ "-src")
    | None => Ret tt
    end).

(** [LLVMBuilder.build] (lines 292-373). *)
Definition build (version : LLVMVersionDetails)
    (buildType installationRoot : string) (showProgress cleanup : bool)
  : prog string :=
  here <~ call os_getcwd ;;
  let buildDir := here ++ "/llvm-src/build" in
  call (os_makedirs buildDir) ;;;
  let installDir :=
    installationRoot ++ os_sep ++ __str__ version ++ "-" ++ buildType in
  cmakeGenerator <~
    (if negb Windows then
       ninja <~ commandSucceeded ["ninja"; "--version"] ;;
       Ret (if ninja then "Ninja" else "Unix Makefiles")
     else
       gxx <~ commandSucceeded ["g++"; "-v"] ;;
       Ret (if negb gxx then "NMake Makefiles" else "Unix Makefiles")) ;;
  extraCmakeFlags <~
    (mingw <~ (if Windows then commandSucceeded ["g++"; "-v"] else Ret false) ;;
     if mingw then
       here <~ call os_getcwd ;;
       let buildDirTG := here ++ "/llvm-src/build-tblgen" in
       call (os_makedirs buildDirTG) ;;;
       env <~ call os_environ_copy ;;
       let env := dict_set env "LDFLAGS"
                    (dict_get_default env "LDFLAGS" ""
                       ++ " -static-libgcc -static-libstdc++") in
       let env := dict_set env "CXXFLAGS"
                    (dict_get_default env "CXXFLAGS" ""
                       ++ " -static-libgcc -static-libstdc++") in
       let env := dict_set env "CFLAGS"
                    (dict_get_default env "CFLAGS" "" ++ " -static-libgcc") in
       runOrFail ["cmake"; "-DCMAKE_BUILD_TYPE=" ++ buildType;
                  "-DLLVM_INCLUDE_TESTS=false"; "-G"; cmakeGenerator; ".."]
                 (Some buildDirTG) (Some env) None showProgress false ;;;
       runOrFail ["cmake"; "--build"; "."; "--target"; "llvm-tblgen"]
                 (Some buildDirTG) None None showProgress false ;;;
       runOrFail ["cmake"; "--build"; "."; "--target"; "clang-tblgen"]
                 (Some buildDirTG) None None showProgress false ;;;
       Ret ["-DLLVM_TABLEGEN=" ++ buildDirTG ++ "/bin/llvm-tblgen.exe";
            "-DCLANG_TABLEGEN=" ++ buildDirTG ++ "/bin/clang-tblgen.exe"]
     else Ret []) ;;
  runOrFail (List.app
               ["cmake"; "-DCMAKE_INSTALL_PREFIX=" ++ installDir;
                "-DCMAKE_BUILD_TYPE=" ++ buildType; "-DLLVM_ENABLE_EH=true";
                "-DLLVM_ENABLE_RTTI=true"; "-DLLVM_INCLUDE_TESTS=false"]
               (List.app extraCmakeFlags ["-G"; cmakeGenerator; ".."]))
            (Some buildDir) None None showProgress false ;;;
  runOrFail ["cmake"; "--build"; "."]
            (Some buildDir) None None showProgress false ;;;
  runOrFail ["cmake"; "--build"; "."; "--target"; "install"]
            (Some buildDir) None None showProgress false ;;;
  (mingw <~ (if Windows then commandSucceeded ["g++"; "-v"] else Ret false) ;;
   if mingw then
     proc <~ call (Popen_communicate
                     {| command := ["where"; "g++"]; stdout_piped := true;
                        stdin_piped := false; universal_newlines := true;
                        cwd := None; env := None |} None) ;;
     out <~ match stdout proc with
            | Some out => Ret out
            | None => Throw AttributeError
            end ;;
     dir <~ call (os_path_dirname (strip out)) ;;
     let dllPath := dir ++ "/libstdc++-6.dll" in
     present <~ call (os_path_exists dllPath) ;;
     if present
     then call (shutil_copy2 dllPath (installDir ++ "/bin/libstdc++-6.dll"))
     else Ret tt
   else Ret tt) ;;;
  (if cleanup then cleanupFiles version else Ret tt) ;;;
  Ret installDir.

(** The command line as [argparse] returns it (lines 428-435). *)
Record Namespace : Type := {
  list_ : bool;
  remove : bool;
  install : bool;
  no_cleanup : bool;
  version : string;
  buildtype : string
}.

(** [sys.exit] *)
Definition sys_exit {A : Type} (status : Z) : prog A := Throw (SystemExit status).

(** What the script does after the build type is checked (lines 443-507):
    parsing the version and dispatching on the options. *)
Variable dispatch : Namespace -> prog unit.

(** The entry point from the parsed arguments on: the check of the build
    type (lines 437-441), then the rest of the script. *)
Definition main (args : Namespace) : prog unit :=
  if negb (in_list (buildtype args) CmakeBuildTypes) then
    call (print ("Error: invalid build type " ++ dquote
                   ++ buildtype args ++ dquote)) ;;;
    call (print ("Valid build types: " ++ join ", " CmakeBuildTypes)) ;;;
    sys_exit 1
  else dispatch args.

End Script.

(** * Notions used in the statements and proofs *)

(** Case analysis on the eight bits of a character. *)
Ltac ascii_cases c :=
  destruct c as [[] [] [] [] [] [] [] []]; try discriminate; try reflexivity.

(** Strings of decimal digits and their value read from the left. *)
Fixpoint all_digits (s : string) : bool :=
  match s with
  | String c r => is_digit c && all_digits r
  | EmptyString => true
  end.

Fixpoint digits_value (acc : N) (s : string) : N :=
  match s with
  | String c r => digits_value (10 * acc + digit_value c) r
  | EmptyString => acc
  end.

(** Strings without a dot. *)
Fixpoint no_dot (s : string) : bool :=
  match s with
  | String c r => negb (Ascii.eqb c ".") && no_dot r
  | EmptyString => true
  end.

(** The integer components of a version string: the comprehension of
    [fromVersionString]. *)
Definition components (versionString : string) : pyresult (list Z) :=
  comprehension int (split "." versionString).

(** The checks of [fromVersionString] on two and on three components,
    gathered. *)
Definition two_ok (v0 v1 : Z) : bool :=
  (0 <=? v0) && (0 <=? v1)
  && ((2 <? v0) || ((v0 =? 2) && (6 <=? v1)))
  && ((v0 <? 3) || ((v0 =? 3) && (v1 <=? 4))).

Definition three_ok (v0 v1 v2 : Z) : bool :=
  (0 <=? v0) && (0 <=? v1) && (0 <=? v2)
  && ((3 <? v0) || ((v0 =? 3) && (4 <=? v1))).

(** Case analysis on the integer comparisons of the goal. *)
Ltac zbool :=
  rewrite ?Z.gtb_ltb, ?Z.geb_leb in *;
  repeat match goal with
         | |- context [(?a <? ?b)%Z] => destruct (Z.ltb_spec a b)
         | |- context [(?a <=? ?b)%Z] => destruct (Z.leb_spec a b)
         | |- context [(?a =? ?b)%Z] => destruct (Z.eqb_spec a b)
         end;
  cbn [andb orb negb];
  try reflexivity; try lia.

(** Releases in their order: major, then minor, then revision, an absent
    revision before any present one. *)
Definition release : Type := Z * Z * option Z.

Definition release_of (v : LLVMVersionDetails) : release :=
  (major v, minor v, revision v).

Definition before (a b : release) : bool :=
  let '(a0, a1, a2) := a in
  let '(b0, b1, b2) := b in
  (a0 <? b0)
  || ((a0 =? b0)
      && ((a1 <? b1)
          || ((a1 =? b1)
              && match a2, b2 with
                 | None, Some _ => true
                 | Some x, Some y => x <? y
                 | _, None => false
                 end))).

(** The two outcomes of the parser on a host [sys]. *)
Definition accepts (sys versionString : string) : Prop :=
  exists v, fromVersionString sys versionString = Returned (Some v).

Definition rejects (sys versionString : string) : Prop :=
  fromVersionString sys versionString = Returned None.

(** The acceptance condition in the words of the specification: two or three
    integer components, none negative, at least 2.6, two components only up
    to 3.4; [three] is what is asked of a three-component form. *)
Definition acceptance (three : Z -> Z -> Z -> Prop) (versionString : string) : Prop :=
  exists version,
    components versionString = Returned version
    /\ match version with
       | [v0; v1] =>
           (0 <= v0 /\ 0 <= v1)
           /\ (2 < v0 \/ (v0 = 2 /\ 6 <= v1))
           /\ (v0 < 3 \/ (v0 = 3 /\ v1 <= 4))
       | [v0; v1; v2] =>
           (0 <= v0 /\ 0 <= v1 /\ 0 <= v2)
           /\ (2 < v0 \/ (v0 = 2 /\ 6 <= v1))
           /\ three v0 v1 v2
       | _ => False
       end.

Definition acceptance_as_stated : string -> Prop :=
  acceptance (fun _ _ _ => True).

Definition at_least_3_4_1 (v0 v1 v2 : Z) : Prop :=
  3 < v0 \/ (v0 = 3 /\ (4 < v1 \/ (v1 = 4 /\ 1 <= v2))).

Definition acceptance_amended : string -> Prop := acceptance at_least_3_4_1.

(** Case analysis on the conditions of an [if] cascade. *)
Ltac case_conditions :=
  repeat match goal with
         | |- context [if ?b then _ else _] => destruct b
         end;
  reflexivity.

(** The entry of an archive role in the table of a version. *)
Definition role (v : LLVMVersionDetails) (name : string) : pyresult (option string) :=
  dict_get (tarballs v) name.

(** The claim of one threshold for the base-name of the clang archive. *)
Definition single_threshold (sys : string) : Prop :=
  exists (t : release) (n1 n2 : string),
  forall s v,
    fromVersionString sys s = Returned (Some v) ->
    (before (release_of v) t = true -> role v "clang" = Returned (Some n1))
    /\ (before (release_of v) t = false -> role v "clang" = Returned (Some n2)).


(** A host on which every call succeeds: the working directory is [/work],
    every command exits with status 0, no path exists. *)
Definition calm_answer (X : Type) (st : unit) (ev : event X) : pyresult X * unit :=
  match ev in event T return pyresult T * unit with
  | os_getcwd => (Returned "/work", tt)
  | os_makedirs _ => (Returned tt, tt)
  | os_environ_copy => (Returned [], tt)
  | os_path_exists _ => (Returned false, tt)
  | os_path_lexists _ => (Returned false, tt)
  | os_path_isdir _ => (Returned false, tt)
  | os_path_dirname p => (Returned p, tt)
  | os_unlink _ => (Returned tt, tt)
  | shutil_rmtree _ _ => (Returned tt, tt)
  | shutil_copy2 _ _ => (Returned tt, tt)
  | Popen_communicate a _ =>
      (Returned {| returncode := 0;
                   stdout := if stdout_piped a then Some "" else None;
                   stderr := if stdout_piped a then Some "" else None |}, tt)
  | print _ => (Returned tt, tt)
  end.

Definition calm : world := {| state := unit; answer := calm_answer |}.

(** A command run by [runOrFail] with its output shown, in [cwd]. *)
Definition shown (command : list string) (cwd : string) : action :=
  act (Popen_communicate
         {| command := command; stdout_piped := false; stdin_piped := true;
            universal_newlines := true; cwd := Some cwd; env := None |} None).

(** Actions that only print, and the report of an invalid build type. *)
Definition is_print (a : action) : Prop := exists line, a = act (print line).

Definition invalid_build_type_report (buildtype : string) : list action :=
  [act (print ("Error: invalid build type " ++ dquote ++ buildtype ++ dquote));
   act (print "Valid build types: Release, Debug, RelWithDebInfo, MinSizeRel")].

(** The number of dots of a string. *)
Fixpoint count_dots (s : string) : nat :=
  match s with
  | String c r => if Ascii.eqb c "." then S (count_dots r) else count_dots r
  | EmptyString => O
  end.

(** The four archive roles, in the order [_listTarballs] declares them. *)
Definition roles : list string := ["llvm"; "clang"; "compiler-rt"; "libcxx"].

(** ** Observing runs *)

(** [run] together with the state in which it leaves the world. *)
Fixpoint exec {A : Type} (w : world) (s : state w) (p : prog A)
  : list action * pyresult A * state w :=
  match p with
  | Ret a => ([], Returned a, s)
  | Throw e => ([], Raised e, s)
  | Call ev k =>
      let '(r, s') := answer w _ s ev in
      let '(t, res, s'') := exec w s' (k r) in
      (act ev :: t, res, s'')
  end.

(** Every call a program can make, whatever the answers, satisfies [P]. *)
Inductive emits {A : Type} (P : action -> Prop) : prog A -> Prop :=
| emits_Ret (a : A) : emits P (Ret a)
| emits_Throw (e : exn) : emits P (Throw e)
| emits_Call (X : Type) (ev : event X) (k : pyresult X -> prog A) :
    P (act ev) -> (forall r, emits P (k r)) -> emits P (Call ev k).

(** Calls that only read the state of the host. *)
Definition is_query (a : action) : bool :=
  match projT2 a with
  | os_getcwd | os_environ_copy | os_path_exists _ | os_path_lexists _
  | os_path_isdir _ | os_path_dirname _ => true
  | _ => false
  end.

(** The path a call deletes, the directory it creates, the command it
    runs, the line it prints. *)
Definition removal (a : action) : option string :=
  match projT2 a with
  | os_unlink p => Some p
  | shutil_rmtree p _ => Some p
  | _ => None
  end.

Definition created (a : action) : option string :=
  match projT2 a with
  | os_makedirs p => Some p
  | _ => None
  end.

Definition popen_command (a : action) : option (list string) :=
  match projT2 a with
  | Popen_communicate args _ => Some (command args)
  | _ => None
  end.

Definition printed (a : action) : option string :=
  match projT2 a with
  | print line => Some line
  | _ => None
  end.

(** The call by which [commandSucceeded] probes a command and the call by
    which [runOrFail] runs one. *)
Definition probe (command : list string) : event process :=
  Popen_communicate
    {| command := command; stdout_piped := true; stdin_piped := false;
       universal_newlines := false; cwd := None; env := None |} None.

Definition spawn (command : list string) (cwd : option string)
    (env : option (dict string)) (input : option string) (showOutput : bool)
  : event process :=
  Popen_communicate
    {| command := command; stdout_piped := negb showOutput;
       stdin_piped := true; universal_newlines := true;
       cwd := cwd; env := env |} input.

(** Worlds in which printing succeeds, and worlds that raise nothing but
    [OSError]. *)
Definition prints_succeed (w : world) : Prop :=
  forall st line, fst (answer w unit st (print line)) = Returned tt.

Definition raises_only_OSError (w : world) : Prop :=
  forall X st (ev : event X) e,
    fst (answer w X st ev) = Raised e -> exists what, e = OSError what.

(** A host like [calm] on which a command exits with the status [status]
    gives it, its output being [out] and [err] when captured. *)
Definition answer_with (status : list string -> Z) (X : Type) (st : unit)
    (ev : event X) : pyresult X * unit :=
  match ev in event T return pyresult T * unit with
  | Popen_communicate a _ =>
      (Returned {| returncode := status (command a);
                   stdout := if stdout_piped a then Some "out" else None;
                   stderr := if stdout_piped a then Some "err" else None |}, tt)
  | other => calm_answer _ st other
  end.

Definition host_with (status : list string -> Z) : world :=
  {| state := unit; answer := answer_with status |}.

(** A host on which every cmake command exits with status 2. *)
Definition cmake_fails : world :=
  host_with (fun command => if String.eqb (hd "" command) "cmake" then 2 else 0).

(** The paths [cleanupFiles] may delete: in some directory, the archive of
    a role of the table, or its [-src] directory. *)
Definition cleanup_target (v : LLVMVersionDetails) (path : string) : Prop :=
  exists here name f,
    tarballFilename v name = Returned (Some f)
    /\ (path = here ++ "/" ++ f \/ path = here ++ "/" ++ name ++ "-src").

(** A program that raises the failure of a command only right after running
    that command, with a non-zero status, and printing. *)
Definition stops_at_failed_command {A : Type} (p : prog A) : Prop :=
  forall w, raises_only_OSError w ->
  forall st t c rc,
    run w st p = (t, Raised (CommandFailed c rc)) ->
    rc <> 0
    /\ exists t1 a t2,
         t = (t1 ++ a :: t2)%list /\ popen_command a = Some c
         /\ Forall is_print t2.

Section Prerequisites.

(** The value of [platform.system()]. *)
Variable platform_system : string.

(** [Utility.errorIfNotAvailable] (lines 96-98). *)
Definition errorIfNotAvailable (command versionFlag : string) : prog unit :=
  ok <~ commandSucceeded [command; versionFlag] ;;
  if negb ok then Throw (CommandNotAvailableError command) else Ret tt.

(** [LLVMBuilder.verifyBuildPrerequisitesMet] (lines 267-271). *)
Definition verifyBuildPrerequisitesMet : prog unit :=
  errorIfNotAvailable "curl" "--version" ;;;
  errorIfNotAvailable "cmake" "--version" ;;;
  if negb (Windows platform_system)
  then errorIfNotAvailable "tar" "--version"
  else Ret tt.

End Prerequisites.


(** ** The rest of the script

    [LLVMSelect], the download and the entry point make calls that [build]
    does not: a [script] is a program over the calls of [build] ([host]) and
    these ([request]).  [Hang] is a loop that has not ended within the fuel given. *)

Inductive request : Type -> Type :=
| host (X : Type) (ev : event X) : request X
| glob_glob (pattern : string) : request (list string)
| os_path_basename (path : string) : request string
| os_path_abspath (path : string) : request string
| open_w_utf8 (filename : string) : request unit
| file_write (filename data : string) : request unit
| file_close (filename : string) : request unit
| shutil_move (src dst : string) : request unit
| tarfile_open (filename : string) : request unit
| tar_getnames (filename : string) : request (list string)
| tar_extractall (filename : string) : request unit
| tar_close (filename : string) : request unit
| print_exception (e : exn) : request unit.
Arguments host {X} ev.

Inductive script (A : Type) : Type :=
| Done (a : A)
| Fail (e : exn)
| Hang
| Do (X : Type) (c : request X) (k : pyresult X -> script A).
Arguments Done {A} a.
Arguments Fail {A} e.
Arguments Hang {A}.
Arguments Do {A X} c k.

Fixpoint sbind {A B : Type} (p : script A) (f : A -> script B) : script B :=
  match p with
  | Done a => f a
  | Fail e => Fail e
  | Hang => Hang
  | Do c k => Do c (fun r => sbind (k r) f)
  end.

Declare Scope script_scope.
Delimit Scope script_scope with script.
Notation "x <<- c ;; k" := (sbind c (fun x => k))
  (at level 61, c at next level, right associativity) : script_scope.
Notation "c >>> k" := (sbind c (fun _ => k))
  (at level 61, right associativity) : script_scope.
Open Scope script_scope.

(** A call whose exception, if any, propagates. *)
Definition do {X : Type} (c : request X) : script X :=
  Do c (fun r => match r with Returned x => Done x | Raised e => Fail e end).

(** A program of [build]'s kind, as a script. *)
Fixpoint up {A : Type} (p : prog A) : script A :=
  match p with
  | Ret a => Done a
  | Throw e => Fail e
  | Call ev k => Do (host ev) (fun r => up (k r))
  end.

(** [try: p except: h]: the handler decides what it takes. *)
Fixpoint catch {A : Type} (p : script A) (h : exn -> script A) : script A :=
  match p with
  | Done a => Done a
  | Fail e => h e
  | Hang => Hang
  | Do c k => Do c (fun r => catch (k r) h)
  end.

(** [try: p finally: q] *)
Fixpoint finally {A : Type} (p : script A) (q : script unit) : script A :=
  match p with
  | Done a => q >>> Done a
  | Fail e => q >>> Fail e
  | Hang => Hang
  | Do c k => Do c (fun r => finally (k r) q)
  end.

Fixpoint sfor_each {A : Type} (l : list A) (body : A -> script unit) : script unit :=
  match l with
  | [] => Done tt
  | x :: xs => body x >>> sfor_each xs body
  end.

(** The world of a script. *)
Record sworld : Type := {
  sstate : Type;
  sanswer : forall X : Type, sstate -> request X -> pyresult X * sstate
}.

Definition saction : Type := { X : Type & request X }.
Definition sact {X : Type} (c : request X) : saction := existT _ X c.

(** The calls made and the outcome, [None] for a script that hangs. *)
Fixpoint srun {A : Type} (w : sworld) (s : sstate w) (p : script A)
  : list saction * option (pyresult A) :=
  match p with
  | Done a => ([], Some (Returned a))
  | Fail e => ([], Some (Raised e))
  | Hang => ([], None)
  | Do c k =>
      let '(r, s') := sanswer w _ s c in
      let '(t, res) := srun w s' (k r) in
      (sact c :: t, res)
  end.

Definition newline : string := String (ascii_of_nat 10) EmptyString.

(** [re.match('[0-9]\\..+-(.+)', itemName)]: group 1 of the match, if any.
    A dot of the pattern takes any character but a newline, and the first
    [.+] is greedy: the dash is the last one that leaves a character on each
    side. *)
Fixpoint line (s : string) : string :=
  match s with
  | String c r => if Ascii.eqb c (ascii_of_nat 10) then EmptyString
                  else String c (line r)
  | EmptyString => EmptyString
  end.

Fixpoint after_last_dash (s : string) : option string :=
  match s with
  | String c r =>
      match after_last_dash r with
      | Some g => Some g
      | None =>
          if Ascii.eqb c "-" then
            match r with EmptyString => None | _ => Some r end
          else None
      end
  | EmptyString => None
  end.

Definition re_match_group1 (itemName : string) : option string :=
  match itemName with
  | String c0 (String c1 rest) =>
      if is_digit c0 && Ascii.eqb c1 "." then
        match line rest with
        | String _ u => after_last_dash u
        | EmptyString => None
        end
      else None
  | _ => None
  end.

Section Select.

(** The values of [platform.system()], [os.sep] and [__file__]. *)
Variable platform_system : string.
Variable os_sep : string.
Variable __file__ : string.

(** Fuel for the loop of [_downloadAndUnpackTarball]. *)
Variable fuel : nat.

(** [Utility.putFileContents] (lines 36-39). *)
Definition putFileContents (filename data : string) : script unit :=
  do (open_w_utf8 filename) >>>
  do (file_write filename data) >>>
  do (file_close filename).

(** The loop of lines 252-253: up to the top-level directory of a name. *)
Fixpoint top_level (n : nat) (rootDir : string) : script string :=
  match n with
  | O => Hang
  | S n' =>
      parent <<- do (host (os_path_dirname rootDir)) ;;
      if String.eqb parent "" then Done rootDir
      else
        parent <<- do (host (os_path_dirname rootDir)) ;;
        top_level n' parent
  end.

(** [LLVMBuilder._downloadAndUnpackTarball] (lines 238-264). *)
Definition _downloadAndUnpackTarball (version : LLVMVersionDetails)
    (tarballName destinationDir : string) (cleanup showProgress : bool)
  : script unit :=
  url <<- up (lift (tarballURL version tarballName)) ;;
  here <<- do (host os_getcwd) ;;
  name <<- up (lift (tarballFilename version tarballName)) ;;
  name <<- match name with Some name => Done name | None => Fail TypeError end ;;
  let filename := here ++ "/" ++ name in
  url <<- match url with Some url => Done url | None => Fail TypeError end ;;
  up (runOrFail ["curl"; "-f"; url; "-o"; filename] None None None
                showProgress false) >>>
  (if Windows platform_system then
     do (tarfile_open filename) >>>
     finally
       (names <<- do (tar_getnames filename) ;;
        rootDir <<- match names with
                    | rootDir :: _ => Done rootDir
                    | [] => Fail IndexError
                    end ;;
        rootDir <<- top_level fuel rootDir ;;
        do (tar_extractall filename) >>>
        here <<- do (host os_getcwd) ;;
        do (shutil_move (here ++ "/" ++ rootDir) destinationDir))
       (do (tar_close filename))
   else
     do (host (os_makedirs destinationDir)) >>>
     up (runOrFail ["tar"; "-xvf"; filename; "-C"; destinationDir;
                    "--strip-components=1"] None None None false false)) >>>
  if cleanup then do (host (os_unlink filename)) else Done tt.

(** [LLVMBuilder.download] (lines 274-289). *)
Definition download (version : LLVMVersionDetails) (showProgress : bool)
  : script unit :=
  sfor_each (keys (tarballs version)) (fun tarballName =>
    tarball <<- up (lift (dict_get (tarballs version) tarballName)) ;;
    match tarball with
    | Some _ =>
        here <<- do (host os_getcwd) ;;
        let dir := here ++ "/" ++ tarballName ++ "-src" in
        _downloadAndUnpackTarball version tarballName dir true showProgress
    | None => Done tt
    end) >>>
  src <<- do (host os_getcwd) ;;
  dst <<- do (host os_getcwd) ;;
  do (shutil_move (src ++ "/clang-src") (dst ++ "/llvm-src/tools/clang")) >>>
  rt <<- up (lift (dict_get (tarballs version) "compiler-rt")) ;;
  (match rt with
   | Some _ =>
       src <<- do (host os_getcwd) ;;
       dst <<- do (host os_getcwd) ;;
       do (shutil_move (src ++ "/compiler-rt-src")
                       (dst ++ "/llvm-src/projects/compiler-rt"))
   | None => Done tt
   end) >>>
  cxx <<- up (lift (dict_get (tarballs version) "libcxx")) ;;
  match cxx with
  | Some _ =>
      src <<- do (host os_getcwd) ;;
      dst <<- do (host os_getcwd) ;;
      do (shutil_move (src ++ "/libcxx-src") (dst ++ "/llvm-src/projects/libcxx"))
  | None => Done tt
  end.

(** [LLVMSelect.getInstallationDir] (lines 380-384). *)
Definition getInstallationDir : script string :=
  if Windows platform_system then
    here <<- do (os_path_abspath __file__) ;;
    parent <<- do (host (os_path_dirname here)) ;;
    root <<- do (host (os_path_dirname parent)) ;;
    Done (root ++ "\versions")
  else Done "/usr/local/llvm".

(** The loop of [getInstalledVersions] (lines 390-394). *)
Fixpoint installed_among (items versions : list string) : script (list string) :=
  match items with
  | [] => Done versions
  | item :: rest =>
      itemName <<- do (os_path_basename item) ;;
      let found := re_match_group1 itemName in
      isdir <<- do (host (os_path_isdir item)) ;;
      if isdir
         && match found with
            | Some group1 => in_list group1 CmakeBuildTypes
            | None => false
            end
      then installed_among rest (List.app versions [itemName])
      else installed_among rest versions
  end.

(** [LLVMSelect.getInstalledVersions] (lines 388-395). *)
Definition getInstalledVersions : script (list string) :=
  dir <<- getInstallationDir ;;
  items <<- do (glob_glob (dir ++ "/*")) ;;
  installed_among items [].

(** [LLVMSelect.removeLibraryVersion] (lines 399-402). *)
Definition removeLibraryVersion (llvmVersion buildType : string) : script unit :=
  dir <<- getInstallationDir ;;
  let libraryDir := dir ++ os_sep ++ llvmVersion ++ "-" ++ buildType in
  do (host (shutil_rmtree libraryDir false)) >>>
  do (host (print ("Removed `" ++ libraryDir ++ "`."))).

(** [LLVMSelect.setActiveLibraryVersion] (lines 406-423). *)
Definition setActiveLibraryVersion (llvmVersion buildType : string) : script unit :=
  if Windows platform_system then
    versionsRoot <<- getInstallationDir ;;
    let exeLocation :=
      versionsRoot ++ "\" ++ llvmVersion ++ "-" ++ buildType
        ++ "\bin\llvm-config.exe" in
    parent <<- do (host (os_path_dirname versionsRoot)) ;;
    let batLocation := parent ++ "\bin\llvm-config.cmd" in
    putFileContents batLocation
      ("@echo off" ++ newline ++ dquote ++ exeLocation ++ dquote ++ " %*") >>>
    do (host (print ("Set llvm-config to point to `" ++ exeLocation ++ "`.")))
  else
    dir <<- getInstallationDir ;;
    let llvmConfigPath :=
      dir ++ "/" ++ llvmVersion ++ "-" ++ buildType ++ "/bin/llvm-config" in
    let symlinkPath := "/usr/local/bin/llvm-config" in
    up (removeIfExists platform_system symlinkPath) >>>
    up (runOrFail ["ln"; "-s"; llvmConfigPath; symlinkPath] None None None
                  false false) >>>
    do (host (print ("Set llvm-config to point to `" ++ llvmConfigPath ++ "`."))).

(** [str(version)] for the result of [fromVersionString]. *)
Definition str_version (parsed : option LLVMVersionDetails) : string :=
  match parsed with
  | Some v => __str__ v
  | None => "None"
  end.

(** [except Exception]: everything but [SystemExit]. *)
Definition is_Exception (e : exn) : bool :=
  match e with SystemExit _ => false | _ => true end.

Definition exit {A : Type} (status : Z) : script A := Fail (SystemExit status).

(** Lines 498-507: what the activation does once the installed versions are
    listed. *)
Definition activate (parsed : option LLVMVersionDetails) (args : Namespace)
    (installed : list string) : script unit :=
  let requestedVersionStr := str_version parsed ++ "-" ++ buildtype args in
  (if negb (in_list requestedVersionStr installed) then
     do (host (print "Error: the specified library version is not currently installed.")) >>>
     exit 1
   else Done tt) >>>
  catch (setActiveLibraryVersion (str_version parsed) (buildtype args))
        (fun e =>
           if is_Exception e then do (print_exception e) >>> exit 1
           else Fail e).

(** The script after the check of the build type (lines 443-507). *)
Definition select (args : Namespace) : script unit :=
  parsed <<- up (lift (fromVersionString platform_system (version args))) ;;
  (if negb (list_ args) && String.eqb (version args) "" then
     do (host (print "Error: you must specify an LLVM version.")) >>> exit 1
   else if negb (list_ args) && is_None parsed then
     do (host (print ("Error: unsupported LLVM version " ++ dquote
                        ++ version args ++ dquote ++ "."))) >>> exit 1
   else Done tt) >>>
  if list_ args then
    versions <<- getInstalledVersions ;;
    if (0 <? List.length versions)%nat then
      do (host (print "Installed library versions:")) >>>
      do (host (print (join newline versions)))
    else do (host (print "There are no library versions currently installed."))
  else if remove args then
    catch (removeLibraryVersion (str_version parsed) (buildtype args))
          (fun e =>
             if is_Exception e then
               do (print_exception e) >>>
               do (host (print "Error: failed to remove the specified library version.")) >>>
               exit 1
             else Fail e)
  else if install args then
    finally
      (catch
         (up (verifyBuildPrerequisitesMet platform_system) >>>
          match parsed with
          | Some v =>
              download v true >>>
              root <<- getInstallationDir ;;
              installDir <<- up (build platform_system os_sep v (buildtype args)
                                       root true (negb (no_cleanup args))) ;;
              do (host (print ("Library installed to: " ++ installDir)))
          | None => Fail AttributeError
          end)
         (fun e =>
            match e with
            | CommandNotAvailableError command =>
                do (host (print ("Error: " ++ command
                                   ++ " is required for the build process."))) >>>
                do (host (print ("Please ensure " ++ command
                                   ++ " is installed and available in the system PATH."))) >>>
                exit 1
            | _ => do (print_exception e) >>> exit 1
            end))
      (if negb (no_cleanup args)
       then match parsed with
            | Some v => up (cleanupFiles platform_system v)
            | None => Fail AttributeError
            end
       else Done tt)
  else
    installed <<- getInstalledVersions ;;
    activate parsed args installed.

(** The entry point from the parsed arguments on: the check of the build
    type, then the rest of the script. *)
Definition __main__ (args : Namespace) : script unit :=
  up (main (fun _ => Ret tt) args) >>> select args.

End Select.

(** ** Observing scripts *)

(** Every call a script can make, whatever the answers, satisfies [P]. *)
Inductive semits {A : Type} (P : saction -> Prop) : script A -> Prop :=
| semits_Done (a : A) : semits P (Done a)
| semits_Fail (e : exn) : semits P (Fail e)
| semits_Hang : semits P Hang
| semits_Do (X : Type) (c : request X) (k : pyresult X -> script A) :
    P (sact c) -> (forall r, semits P (k r)) -> semits P (Do c k).

(** Every value a script can return, whatever the answers, satisfies [Q]. *)
Inductive yields {A : Type} (Q : A -> Prop) : script A -> Prop :=
| yields_Done (a : A) : Q a -> yields Q (Done a)
| yields_Fail (e : exn) : yields Q (Fail e)
| yields_Hang : yields Q Hang
| yields_Do (X : Type) (c : request X) (k : pyresult X -> script A) :
    (forall r, yields Q (k r)) -> yields Q (Do c k).

(** The call of [build]'s kind that a call of a script is, if it is one. *)
Definition hosted (a : saction) : option action :=
  match projT2 a with
  | host ev => Some (act ev)
  | _ => None
  end.

(** A call of a script that only reads the host. *)
Definition reads (a : saction) : bool :=
  match projT2 a with
  | host ev => is_query (act ev)
  | glob_glob _ | os_path_basename _ | os_path_abspath _ => true
  | _ => false
  end.

(** The line a call of a script prints, the path it deletes with [rmtree],
    the command it runs. *)
Definition sprinted (a : saction) : option string :=
  match projT2 a with
  | host (print line) => Some line
  | _ => None
  end.

Definition rmtree_of (a : saction) : option string :=
  match projT2 a with
  | host (shutil_rmtree p _) => Some p
  | _ => None
  end.

Definition unlink_of (a : saction) : option string :=
  match projT2 a with
  | host (os_unlink p) => Some p
  | _ => None
  end.

Definition scommand (a : saction) : option (list string) :=
  match projT2 a with
  | host (Popen_communicate args _) => Some (command args)
  | _ => None
  end.

(** Strings without a dash, without a newline. *)
Fixpoint no_dash (s : string) : bool :=
  match s with
  | String c r => negb (Ascii.eqb c "-") && no_dash r
  | EmptyString => true
  end.

Fixpoint no_newline (s : string) : bool :=
  match s with
  | String c r => negb (Ascii.eqb c (ascii_of_nat 10)) && no_newline r
  | EmptyString => true
  end.

(** Script worlds in which printing succeeds. *)
Definition sprints_succeed (w : sworld) : Prop :=
  forall st line, fst (sanswer w unit st (host (print line))) = Returned tt.

(** A script host on which every call succeeds, like [calm], with nothing
    installed. *)
Definition scalm_answer (X : Type) (st : unit) (c : request X) : pyresult X * unit :=
  match c in request T return pyresult T * unit with
  | host ev => calm_answer _ st ev
  | glob_glob _ => (Returned [], tt)
  | os_path_basename p => (Returned p, tt)
  | os_path_abspath p => (Returned p, tt)
  | tar_getnames _ => (Returned [], tt)
  | open_w_utf8 _ | file_write _ _ | file_close _ | shutil_move _ _
  | tarfile_open _ | tar_extractall _ | tar_close _ | print_exception _ =>
      (Returned tt, tt)
  end.

Definition scalm : sworld := {| sstate := unit; sanswer := scalm_answer |}.

(** The source and destination of a move. *)
Definition moved (a : saction) : option (string * string) :=
  match projT2 a with
  | shutil_move src dst => Some (src, dst)
  | _ => None
  end.

(** The commands of a download: fetching the archive of a role from its
    URL into some directory, and unpacking it into the [-src] directory of
    the role. *)
Definition curl_of (v : LLVMVersionDetails) (c : list string) : Prop :=
  exists name u f here,
    tarballURL v name = Returned (Some u)
    /\ tarballFilename v name = Returned (Some f)
    /\ c = ["curl"; "-f"; u; "-o"; here ++ "/" ++ f].

Definition untar_of (v : LLVMVersionDetails) (c : list string) : Prop :=
  exists name f here here',
    tarballFilename v name = Returned (Some f)
    /\ c = ["tar"; "-xvf"; here ++ "/" ++ f; "-C";
            here' ++ "/" ++ name ++ "-src"; "--strip-components=1"].

(** The path of the archive of a role, in some directory. *)
Definition archive_path (v : LLVMVersionDetails) (path : string) : Prop :=
  exists name f here,
    tarballFilename v name = Returned (Some f) /\ path = here ++ "/" ++ f.

(** The moves that put the unpacked trees into the tree of llvm. *)
Definition relocation (src dst : string) : Prop :=
  exists here here' name sub,
    In (name, sub) [("clang", "tools/clang");
                    ("compiler-rt", "projects/compiler-rt");
                    ("libcxx", "projects/libcxx")]
    /\ src = here ++ "/" ++ name ++ "-src"
    /\ dst = here' ++ "/llvm-src/" ++ sub.

(** What a call of [download] can be, on a host [sys]. *)
Definition download_call (sys : string) (v : LLVMVersionDetails)
    (a : saction) : Prop :=
  match projT2 a with
  | host os_getcwd => True
  | host (print _) => True
  | host (os_path_dirname _) => Windows sys = true
  | host (os_makedirs p) =>
      Windows sys = false /\ exists here name, p = here ++ "/" ++ name ++ "-src"
  | host (os_unlink p) => archive_path v p
  | host (Popen_communicate args _) =>
      curl_of v (command args)
      \/ (Windows sys = false /\ untar_of v (command args))
  | shutil_move src dst =>
      relocation src dst
      \/ (Windows sys = true /\ exists here name, dst = here ++ "/" ++ name ++ "-src")
  | tarfile_open _ | tar_getnames _ | tar_extractall _ | tar_close _ =>
      Windows sys = true
  | _ => False
  end.

(** The part of a path after its last slash. *)
Fixpoint after_last_slash (s : string) : string :=
  match s with
  | String c r =>
      if existsb (Ascii.eqb "/") (list_ascii_of_string r) then after_last_slash r
      else if Ascii.eqb c "/" then r else s
  | EmptyString => EmptyString
  end.

(** A script host like [scalm] whose installation directory holds the
    directories [3.4.1-Release], [3.5.0-Fast] and [notes]. *)
Definition stocked_answer (X : Type) (st : unit) (c : request X) : pyresult X * unit :=
  match c in request T return pyresult T * unit with
  | host ev =>
      match ev in event T return pyresult T * unit with
      | os_path_isdir _ => (Returned true, tt)
      | other => calm_answer _ st other
      end
  | glob_glob _ =>
      (Returned ["/usr/local/llvm/3.4.1-Release"; "/usr/local/llvm/3.5.0-Fast";
                 "/usr/local/llvm/notes"], tt)
  | os_path_basename p => (Returned (after_last_slash p), tt)
  | os_path_abspath p => (Returned p, tt)
  | tar_getnames _ => (Returned [], tt)
  | open_w_utf8 _ | file_write _ _ | file_close _ | shutil_move _ _
  | tarfile_open _ | tar_extractall _ | tar_close _ | print_exception _ =>
      (Returned tt, tt)
  end.

Definition stocked : sworld := {| sstate := unit; sanswer := stocked_answer |}.

(** A script that cannot hang, whatever the answers. *)
Inductive halts {A : Type} : script A -> Prop :=
| halts_Done (a : A) : halts (Done a)
| halts_Fail (e : exn) : halts (Fail e)
| halts_Do (X : Type) (c : request X) (k : pyresult X -> script A) :
    (forall r, halts (k r)) -> halts (Do c k).

(** * Properties *)

(** ** Characters and digits *)

Lemma digit_not_special (c : ascii) :
  is_digit c = true ->
  is_space c = false /\ Ascii.eqb c "." = false
  /\ Ascii.eqb c underscore = false.
Proof. intros H; revert H; ascii_cases c; intros _; repeat split. Qed.

Lemma digit_char_spec (d : N) :
  (d < 10)%N -> is_digit (digit_char d) = true /\ digit_value (digit_char d) = d.
Proof.
  intros H.
  assert (E : (d = 0 \/ d = 1 \/ d = 2 \/ d = 3 \/ d = 4 \/ d = 5 \/ d = 6
               \/ d = 7 \/ d = 8 \/ d = 9)%N) by lia.
  repeat (destruct E as [-> | E]; [split; reflexivity |]).
  subst d; split; reflexivity.
Qed.

Lemma scan_all_digits (s : string) :
  forall acc, all_digits s = true ->
              scan acc false s = Some (digits_value acc s, EmptyString).
Proof.
  induction s as [|c r IH]; intros acc H; simpl in *.
  - reflexivity.
  - apply andb_true_iff in H as [Hc Hr]. rewrite Hc. now apply IH.
Qed.

Lemma all_digits_no_dot (s : string) : all_digits s = true -> no_dot s = true.
Proof.
  induction s as [|c r IH]; simpl; intros H; [reflexivity|].
  apply andb_true_iff in H as [Hc Hr].
  destruct (digit_not_special c Hc) as (_ & -> & _). simpl. auto.
Qed.

(** ** [str] and [int] are inverse *)

Lemma str_digits_all_digits (fuel : nat) :
  forall n acc, all_digits acc = true -> all_digits (str_digits fuel n acc) = true.
Proof.
  induction fuel as [|f IH]; intros n acc H; simpl; [assumption|].
  assert (D : all_digits (String (digit_char (n mod 10)) acc) = true).
  { simpl. rewrite H, andb_true_r.
    apply digit_char_spec. apply N.mod_lt. discriminate. }
  destruct (n / 10 =? 0)%N; [exact D | now apply IH].
Qed.

Lemma str_digits_value (fuel : nat) :
  forall n acc, (n < 2 ^ N.of_nat fuel)%N -> all_digits acc = true ->
                digits_value 0 (str_digits fuel n acc) = digits_value n acc.
Proof.
  induction fuel as [|f IH]; intros n acc Hn Hacc.
  - simpl in *. assert (n = 0)%N by lia. now subst.
  - cbn [str_digits].
    assert (Hd : (n mod 10 < 10)%N) by (apply N.mod_lt; discriminate).
    destruct (digit_char_spec _ Hd) as [D1 D2].
    pose proof (N.div_mod n 10 ltac:(discriminate)) as E.
    destruct (n / 10 =? 0)%N eqn:Q.
    + apply N.eqb_eq in Q. cbn [digits_value]. rewrite D2. f_equal. lia.
    + rewrite IH.
      * cbn [digits_value]. rewrite D2. f_equal. lia.
      * rewrite Nat2N.inj_succ, N.pow_succ_r' in Hn.
        apply N.Div0.div_lt_upper_bound.
        revert Hn. generalize (2 ^ N.of_nat f)%N. intros; lia.
      * simpl. now rewrite D1, Hacc.
Qed.

Lemma str_digits_nonempty (fuel : nat) (n : N) (acc : string) :
  exists c r, str_digits (S fuel) n acc = String c r.
Proof.
  revert n acc. induction fuel as [|f IH]; intros n acc.
  - simpl. destruct (n / 10 =? 0)%N; eauto.
  - cbn [str_digits]. destruct (n / 10 =? 0)%N; [eauto|].
    apply (IH (n / 10)%N).
Qed.

Lemma str_N_spec (n : N) :
  exists c r, str_N n = String c r /\ is_digit c = true /\ all_digits r = true
              /\ digits_value (digit_value c) r = n.
Proof.
  unfold str_N.
  destruct (str_digits_nonempty (N.to_nat (N.log2 n)) n EmptyString) as (c & r & E).
  pose proof (str_digits_all_digits (S (N.to_nat (N.log2 n))) n EmptyString eq_refl) as A.
  assert (B : (n < 2 ^ N.of_nat (S (N.to_nat (N.log2 n))))%N).
  { rewrite Nat2N.inj_succ, N2Nat.id.
    destruct n as [|p]; [reflexivity|]. apply N.log2_spec. reflexivity. }
  pose proof (str_digits_value _ n EmptyString B eq_refl) as V.
  rewrite E in A, V. cbn [all_digits digits_value] in A, V.
  rewrite N.mul_0_r, N.add_0_l in V.
  apply andb_true_iff in A as [A1 A2].
  exists c, r. repeat split; assumption.
Qed.

Lemma int_digits (c : ascii) (r : string) :
  is_digit c = true -> all_digits r = true ->
  int (String c r) = Returned (Z.of_N (digits_value (digit_value c) r)).
Proof.
  intros Hc Hr. revert Hc.
  ascii_cases c; intros _; unfold int; cbn -[scan Z.of_N];
    rewrite (scan_all_digits r _ Hr); reflexivity.
Qed.

Lemma int_minus_digits (c : ascii) (r : string) :
  is_digit c = true -> all_digits r = true ->
  int (String "-" (String c r))
  = Returned (- Z.of_N (digits_value (digit_value c) r)).
Proof.
  intros Hc Hr. unfold int. cbn -[scan Z.of_N Z.opp].
  rewrite Hc, (scan_all_digits r _ Hr). reflexivity.
Qed.

Lemma int_str (z : Z) : int (str z) = Returned z.
Proof.
  unfold str. destruct (z <? 0) eqn:S.
  - apply Z.ltb_lt in S.
    destruct (str_N_spec (Z.to_N (- z))) as (c & r & -> & Hc & Hr & V).
    rewrite (int_minus_digits c r Hc Hr), V. f_equal. lia.
  - apply Z.ltb_ge in S.
    destruct (str_N_spec (Z.to_N z)) as (c & r & -> & Hc & Hr & V).
    rewrite (int_digits c r Hc Hr), V. f_equal. lia.
Qed.

Lemma str_no_dot (z : Z) : no_dot (str z) = true.
Proof.
  unfold str. destruct (z <? 0).
  - destruct (str_N_spec (Z.to_N (- z))) as (c & r & -> & Hc & Hr & _).
    change (no_dot (String c r) = true).
    apply all_digits_no_dot. simpl. now rewrite Hc, Hr.
  - destruct (str_N_spec (Z.to_N z)) as (c & r & -> & Hc & Hr & _).
    apply all_digits_no_dot. simpl. now rewrite Hc, Hr.
Qed.

(** ** [split] on strings built with dots *)

Lemma split_nonempty (sep : ascii) (s : string) : split sep s <> [].
Proof.
  destruct s as [|c r]; simpl; [discriminate|].
  destruct (Ascii.eqb c sep); [discriminate|].
  destruct (split sep r); discriminate.
Qed.

Lemma split_no_dot (s : string) : no_dot s = true -> split "." s = [s].
Proof.
  induction s as [|c r IH]; simpl; intros H; [reflexivity|].
  apply andb_true_iff in H as [Hc Hr].
  apply negb_true_iff in Hc. rewrite Hc, (IH Hr). reflexivity.
Qed.

Lemma split_app_dot (a b : string) :
  no_dot a = true -> split "." (a ++ String "." b) = a :: split "." b.
Proof.
  induction a as [|c r IH]; simpl; intros H; [reflexivity|].
  apply andb_true_iff in H as [Hc Hr].
  apply negb_true_iff in Hc. rewrite Hc, (IH Hr). reflexivity.
Qed.

Lemma append_assoc (a b c : string) : (a ++ b) ++ c = a ++ (b ++ c).
Proof. induction a as [|x a IH]; simpl; [reflexivity | now rewrite IH]. Qed.

(** ** The checks of [fromVersionString] as a decision table *)

Lemma fromVersionString_cases (sys s : string) :
  fromVersionString sys s =
  match components s with
  | Returned [v0; v1] =>
      if two_ok v0 v1 then Returned (Some (__init__ sys v0 v1 None))
      else Returned None
  | Returned [v0; v1; v2] =>
      if three_ok v0 v1 v2 then Returned (Some (__init__ sys v0 v1 (Some v2)))
      else Returned None
  | _ => Returned None
  end.
Proof.
  unfold fromVersionString, components.
  destruct (comprehension int (split "." s)) as [version|e]; [|reflexivity].
  destruct version as [|v0 [|v1 [|v2 [|v3 rest]]]]; try reflexivity.
  - unfold two_ok. cbn -[Z.ltb Z.leb Z.eqb Z.gtb Z.geb]. zbool.
  - unfold three_ok. cbn -[Z.ltb Z.leb Z.eqb Z.gtb Z.geb]. zbool.
Qed.

Lemma two_ok_iff (v0 v1 : Z) :
  two_ok v0 v1 = true <->
  (0 <= v0 /\ 0 <= v1) /\ (2 < v0 \/ (v0 = 2 /\ 6 <= v1))
  /\ (v0 < 3 \/ (v0 = 3 /\ v1 <= 4)).
Proof. unfold two_ok. split; [|intros H]; zbool; intros; try discriminate; lia. Qed.

Lemma three_ok_iff (v0 v1 v2 : Z) :
  three_ok v0 v1 v2 = true <->
  (0 <= v0 /\ 0 <= v1 /\ 0 <= v2) /\ (3 < v0 \/ (v0 = 3 /\ 4 <= v1)).
Proof. unfold three_ok. split; [|intros H]; zbool; intros; try discriminate; lia. Qed.

Lemma comprehension_length {A B : Type} (f : A -> pyresult B) (l : list A) :
  forall l', comprehension f l = Returned l' -> List.length l' = List.length l.
Proof.
  induction l as [|x xs IH]; simpl; intros l' H.
  - now inversion H.
  - destruct (f x); [|discriminate]. simpl in H.
    destruct (comprehension f xs) as [ys|]; [|discriminate].
    inversion H; subst. simpl. f_equal. now apply IH.
Qed.

(** What the parser does with three components: it looks at major and minor
    only. *)
Lemma three_components_accepted (sys s : string) (v0 v1 v2 : Z) :
  components s = Returned [v0; v1; v2] ->
  (accepts sys s <->
   (0 <= v0 /\ 0 <= v1 /\ 0 <= v2) /\ (3 < v0 \/ (v0 = 3 /\ 4 <= v1))).
Proof.
  intros C. unfold accepts. rewrite fromVersionString_cases, C.
  rewrite <- three_ok_iff. destruct (three_ok v0 v1 v2); split.
  - reflexivity.
  - eauto.
  - intros [v H]; discriminate.
  - discriminate.
Qed.

(** C1: the code takes [3.4.0], a three-component version below 3.4.1
    (the guard of the parser compares major and minor only), where the claim
    has every three-component version below 3.4.1 rejected. *)
Theorem C1_three_component_3_4_0_accepted (sys : string) :
  components "3.4.0" = Returned [3; 4; 0]
  /\ before (3, 4, Some 0) (3, 4, Some 1) = true
  /\ fromVersionString sys "3.4.0" = Returned (Some (__init__ sys 3 4 (Some 0))).
Proof. repeat split. Qed.

(** C2, as stated, fails: [2.6.1] has three non-negative integer
    components and is at least 2.6, and the parser rejects it. *)
Lemma C2_counterexample_2_6_1 :
  acceptance_as_stated "2.6.1" /\ rejects "Linux" "2.6.1".
Proof.
  split; [|reflexivity].
  exists [2; 6; 1]. split; [reflexivity|]. cbn. lia.
Qed.

(** C2, amended: apart from the inputs that denote 3.4.0, the parser accepts
    exactly the strings that split on dots into two or three integer
    components, none negative, denoting a version that is at least 2.6, with
    two components only up to 3.4 and three components only from 3.4.1 on;
    the listed examples are rejected and accepted as the claim says. *)
Theorem C2_accepts_iff (sys : string) :
  (forall s, components s <> Returned [3; 4; 0] ->
             (accepts sys s <-> acceptance_amended s))
  /\ (rejects sys "2.5" /\ rejects sys "3.4.1.2" /\ rejects sys "-3.7.0"
      /\ rejects sys "hg" /\ rejects sys "3.")
  /\ (accepts sys "3.4" /\ accepts sys "3.4.1" /\ accepts sys "2.6"
      /\ accepts sys "3.5.0").
Proof.
  split; [|split; [repeat split | repeat split; eexists; reflexivity]].
  intros s Hs. unfold accepts, acceptance_amended, acceptance.
  rewrite fromVersionString_cases.
  destruct (components s) as [version|e].
  - destruct version as [|v0 [|v1 [|v2 [|v3 rest]]]].
    1, 2, 5: split; [intros [v H]; discriminate
                    | intros (l & E & F); inversion E; subst; contradiction].
    + destruct (two_ok v0 v1) eqn:T.
      * split; [intros _ | eauto].
        eexists; split; [reflexivity|]. now apply two_ok_iff.
      * split; [intros [v H]; discriminate|].
        intros (l & E & F); inversion E; subst.
        apply two_ok_iff in F. congruence.
    + assert (NZ : ~ (v0 = 3 /\ v1 = 4 /\ v2 = 0)).
      { intros (-> & -> & ->). now apply Hs. }
      destruct (three_ok v0 v1 v2) eqn:T.
      * split; [intros _ | eauto].
        eexists; split; [reflexivity|].
        apply three_ok_iff in T. unfold at_least_3_4_1. lia.
      * split; [intros [v H]; discriminate|].
        intros (l & E & F); inversion E; subst.
        assert (three_ok v0 v1 v2 = true); [|congruence].
        apply three_ok_iff. unfold at_least_3_4_1 in F. lia.
  - split; [intros [v H]; discriminate | intros (l & E & _); discriminate].
Qed.

Lemma C2_accepts_iff_witness :
  components "3.4.1" <> Returned [3; 4; 0]
  /\ (accepts "Linux" "3.4.1" <-> acceptance_amended "3.4.1").
Proof.
  assert (H : components "3.4.1" <> Returned [3; 4; 0])
    by (vm_compute; discriminate).
  split; [exact H | exact (proj1 (C2_accepts_iff "Linux") "3.4.1" H)].
Defined.

(** ** The canonical string form *)

Lemma components_two (a b : Z) :
  components (str a ++ "." ++ str b) = Returned [a; b].
Proof.
  unfold components. cbn [append].
  rewrite (split_app_dot _ _ (str_no_dot a)), (split_no_dot _ (str_no_dot b)).
  cbn [comprehension]. now rewrite !int_str.
Qed.

Lemma components_three (a b c : Z) :
  components ((str a ++ "." ++ str b) ++ "." ++ str c) = Returned [a; b; c].
Proof.
  unfold components. rewrite append_assoc. cbn [append].
  rewrite (split_app_dot _ _ (str_no_dot a)), (split_app_dot _ _ (str_no_dot b)),
    (split_no_dot _ (str_no_dot c)).
  cbn [comprehension]. now rewrite !int_str.
Qed.

Lemma components_of___str__ (sys : string) (v0 v1 : Z) (rev : option Z) :
  components (__str__ (__init__ sys v0 v1 rev))
  = Returned (v0 :: v1 :: match rev with Some r => [r] | None => [] end).
Proof.
  unfold __str__. cbn [major minor revision __init__].
  destruct rev; [apply components_three | apply components_two].
Qed.

(** C3: parsing the canonical string of a parsed version gives that version
    again, with the same major, minor and revision (and the same derived
    fields). *)
Theorem C3_parse_str_roundtrip (sys s : string) (v : LLVMVersionDetails) :
  fromVersionString sys s = Returned (Some v) ->
  fromVersionString sys (__str__ v) = Returned (Some v).
Proof.
  rewrite fromVersionString_cases.
  destruct (components s) as [version|e]; [|discriminate].
  destruct version as [|v0 [|v1 [|v2 [|v3 rest]]]]; try discriminate.
  - destruct (two_ok v0 v1) eqn:T; [|discriminate].
    intros H; inversion H; subst v.
    rewrite fromVersionString_cases, components_of___str__, T. reflexivity.
  - destruct (three_ok v0 v1 v2) eqn:T; [|discriminate].
    intros H; inversion H; subst v.
    rewrite fromVersionString_cases, components_of___str__, T. reflexivity.
Qed.

Lemma C3_parse_str_roundtrip_witness :
  fromVersionString "Linux" " +3 . 04 .1"
  = Returned (Some (__init__ "Linux" 3 4 (Some 1)))
  /\ __str__ (__init__ "Linux" 3 4 (Some 1)) = "3.4.1"
  /\ fromVersionString "Linux" (__str__ (__init__ "Linux" 3 4 (Some 1)))
     = Returned (Some (__init__ "Linux" 3 4 (Some 1))).
Proof.
  split; [reflexivity | split; [reflexivity|]].
  apply (C3_parse_str_roundtrip "Linux" " +3 . 04 .1"). reflexivity.
Defined.

(** ** Totality and the invariants of a parsed version *)

(** C10: on every string the parser returns, without an exception, either
    [None] or a version with major at least 2, minor at least 6 when major
    is 2, no negative minor or revision, and a revision absent exactly when
    the string has two components. *)
Theorem C10_total_with_invariants (sys s : string) :
  exists r, fromVersionString sys s = Returned r
            /\ match r with
               | None => True
               | Some v =>
                   2 <= major v
                   /\ (major v = 2 -> 6 <= minor v)
                   /\ 0 <= minor v
                   /\ (forall x, revision v = Some x -> 0 <= x)
                   /\ (revision v = None <-> List.length (split "." s) = 2%nat)
               end.
Proof.
  rewrite fromVersionString_cases.
  destruct (components s) as [version|e] eqn:C; [|now exists None].
  apply comprehension_length in C.
  destruct version as [|v0 [|v1 [|v2 [|v3 rest]]]]; try now exists None.
  - destruct (two_ok v0 v1) eqn:T; [|now exists None].
    apply two_ok_iff in T. eexists; split; [reflexivity|]. simpl in *.
    repeat split; solve [lia | discriminate | congruence].
  - destruct (three_ok v0 v1 v2) eqn:T; [|now exists None].
    apply three_ok_iff in T. eexists; split; [reflexivity|]. simpl in *.
    repeat split;
      solve [lia | discriminate | intros x E; inversion E; lia
            | rewrite <- C; discriminate].
Qed.

(** ** The archive extension *)

(** C4: the extension of a parsed version is [.tgz] for 2.7 to 2.9,
    [.tar.gz] for 2.6 and 3.0, [.src.tar.gz] for 3.1 to 3.4.x and
    [.src.tar.xz] from 3.5.0 on; so it is for 2.9, 3.0, 3.4.2 and 3.5.0. *)
Theorem C4_extension_bands (sys s : string) (v : LLVMVersionDetails) :
  fromVersionString sys s = Returned (Some v) ->
  (major v = 2 /\ 7 <= minor v <= 9 -> extension v = ".tgz")
  /\ ((major v = 2 /\ minor v = 6) \/ (major v = 3 /\ minor v = 0) ->
      extension v = ".tar.gz")
  /\ (major v = 3 /\ 1 <= minor v <= 4 -> extension v = ".src.tar.gz")
  /\ (3 < major v \/ (major v = 3 /\ 5 <= minor v) -> extension v = ".src.tar.xz")
  /\ (s = "2.9" -> extension v = ".tgz")
  /\ (s = "3.0" -> extension v = ".tar.gz")
  /\ (s = "3.4.2" -> extension v = ".src.tar.gz")
  /\ (s = "3.5.0" -> extension v = ".src.tar.xz").
Proof.
  intros H.
  assert (E : extension v = _determineExtenion (major v) (minor v)).
  { rewrite fromVersionString_cases in H.
    destruct (components s) as [version|e]; [|discriminate].
    destruct version as [|v0 [|v1 [|v2 [|v3 rest]]]]; try discriminate.
    - destruct (two_ok v0 v1); inversion H; reflexivity.
    - destruct (three_ok v0 v1 v2); inversion H; reflexivity. }
  repeat split; try (intros ->; inversion H; reflexivity);
    rewrite E; unfold _determineExtenion; intros B; zbool.
Qed.

Lemma C4_extension_bands_witness :
  extension (__init__ "Linux" 3 4 (Some 2)) = ".src.tar.gz".
Proof.
  apply (C4_extension_bands "Linux" "3.4.2" (__init__ "Linux" 3 4 (Some 2)) eq_refl).
  reflexivity.
Defined.

(** ** The archive table *)

Lemma parsed_is_init (sys s : string) (v : LLVMVersionDetails) :
  fromVersionString sys s = Returned (Some v) ->
  v = __init__ sys (major v) (minor v) (revision v)
  /\ 0 <= major v /\ 0 <= minor v
  /\ (2 < major v \/ (major v = 2 /\ 6 <= minor v))
  /\ match revision v with
     | None => major v < 3 \/ (major v = 3 /\ minor v <= 4)
     | Some r => 0 <= r /\ (3 < major v \/ (major v = 3 /\ 4 <= minor v))
     end.
Proof.
  rewrite fromVersionString_cases.
  destruct (components s) as [version|e]; [|discriminate].
  destruct version as [|v0 [|v1 [|v2 [|v3 rest]]]]; try discriminate.
  - destruct (two_ok v0 v1) eqn:T; [|discriminate].
    intros H; inversion H; subst v. apply two_ok_iff in T. simpl.
    repeat split; solve [lia | reflexivity].
  - destruct (three_ok v0 v1 v2) eqn:T; [|discriminate].
    intros H; inversion H; subst v. apply three_ok_iff in T. simpl.
    repeat split; solve [lia | reflexivity].
Qed.

Lemma clang_entry (sys : string) (M m : Z) (r : option Z) :
  dict_get (_listTarballs sys M m r) "clang"
  = Returned (Some (if (M <? 3)
                       || ((M =? 3) && ((m <? 3) || ((m =? 4) && is_None r)))
                    then "clang" else "cfe")).
Proof. unfold _listTarballs. case_conditions. Qed.

Lemma compiler_rt_entry (sys : string) (M m : Z) (r : option Z) :
  dict_get (_listTarballs sys M m r) "compiler-rt"
  = Returned (if negb (String.eqb sys "Windows")
                 && ((M >? 3) || ((M =? 3) && (m >=? 1)))
              then Some "compiler-rt" else None).
Proof. unfold _listTarballs. case_conditions. Qed.

Lemma libcxx_entry (sys : string) (M m : Z) (r : option Z) :
  dict_get (_listTarballs sys M m r) "libcxx"
  = Returned (if String.eqb sys "Darwin"
                 && ((M >? 3) || ((M =? 3) && (m >=? 3)))
              then Some "libcxx" else None).
Proof. unfold _listTarballs. case_conditions. Qed.

(** C5, as stated, fails: the base-name is [clang] at 3.2, [cfe] at 3.3 and
    [clang] again at 3.4, so no single threshold separates the two names. *)
Lemma C5_counterexample_no_single_threshold :
  (role (__init__ "Linux" 3 2 None) "clang" = Returned (Some "clang")
   /\ role (__init__ "Linux" 3 3 None) "clang" = Returned (Some "cfe")
   /\ role (__init__ "Linux" 3 4 None) "clang" = Returned (Some "clang"))
  /\ ~ single_threshold "Linux".
Proof.
  split; [repeat split|].
  intros ([[t0 t1] t2] & n1 & n2 & H).
  destruct (H "3.2" (__init__ "Linux" 3 2 None) eq_refl) as [A2 _].
  destruct (H "3.3" (__init__ "Linux" 3 3 None) eq_refl) as [A3 B3].
  destruct (H "3.4" (__init__ "Linux" 3 4 None) eq_refl) as [_ B4].
  clear H.
  change (release_of (__init__ "Linux" 3 2 None)) with (3, 2, @None Z) in *.
  change (release_of (__init__ "Linux" 3 3 None)) with (3, 3, @None Z) in *.
  change (release_of (__init__ "Linux" 3 4 None)) with (3, 4, @None Z) in *.
  change (role (__init__ "Linux" 3 2 None) "clang") with (Returned (Some "clang")) in *.
  change (role (__init__ "Linux" 3 3 None) "clang") with (Returned (Some "cfe")) in *.
  change (role (__init__ "Linux" 3 4 None) "clang") with (Returned (Some "clang")) in *.
  destruct (before (3, 3, None) (t0, t1, t2)) eqn:E3.
  - assert (E2 : before (3, 2, None) (t0, t1, t2) = true).
    { revert E3. unfold before. destruct t2; zbool; intros; discriminate. }
    specialize (A2 E2). specialize (A3 eq_refl). congruence.
  - assert (E4 : before (3, 4, None) (t0, t1, t2) = false).
    { revert E3. unfold before. destruct t2; zbool; intros; discriminate. }
    specialize (B4 E4). specialize (B3 eq_refl). congruence.
Qed.

(** C5, amended: the clang archive is present for every parsed version; its
    base-name is [clang] below 3.3 and at 3.4, and [cfe] at 3.3 and from
    3.4.1 on. *)
Theorem C5_frontend_names (sys s : string) (v : LLVMVersionDetails) :
  fromVersionString sys s = Returned (Some v) ->
  (role v "clang" = Returned (Some "clang") \/ role v "clang" = Returned (Some "cfe"))
  /\ (before (release_of v) (3, 3, None) = true \/ release_of v = (3, 4, None) ->
      role v "clang" = Returned (Some "clang"))
  /\ (release_of v = (3, 3, None) \/ before (release_of v) (3, 4, Some 1) = false ->
      role v "clang" = Returned (Some "cfe")).
Proof.
  intros H. destruct (parsed_is_init _ _ _ H) as (E & P0 & P1 & P26 & PR).
  unfold role, release_of. rewrite E. cbn [tarballs major minor revision __init__].
  rewrite clang_entry. clear E H.
  destruct v as [M m r ext tb]; cbn [major minor revision] in *.
  split; [|split].
  - destruct ((M <? 3) || _); auto.
  - intros [B | B].
    + revert B. unfold before. destruct r; cbn [is_None]; zbool; intros; discriminate.
    + inversion B; subst. reflexivity.
  - intros [B | B].
    + inversion B; subst. reflexivity.
    + revert B. unfold before. destruct r as [x|]; cbn [is_None];
        zbool; intros; try discriminate; lia.
Qed.

Lemma C5_frontend_names_witness :
  role (__init__ "Darwin" 3 5 (Some 0)) "clang" = Returned (Some "cfe").
Proof.
  apply (C5_frontend_names "Darwin" "3.5.0" _ eq_refl). right. reflexivity.
Defined.

(** C6: the compiler-rt archive is absent below 3.1, present from 3.1 on
    when the host is not Windows, and absent on Windows at every version. *)
Theorem C6_runtime_presence (sys s : string) (v : LLVMVersionDetails) :
  fromVersionString sys s = Returned (Some v) ->
  (before (release_of v) (3, 1, None) = true -> role v "compiler-rt" = Returned None)
  /\ (before (release_of v) (3, 1, None) = false -> sys <> "Windows" ->
      role v "compiler-rt" = Returned (Some "compiler-rt"))
  /\ (sys = "Windows" -> role v "compiler-rt" = Returned None).
Proof.
  intros H. destruct (parsed_is_init _ _ _ H) as (E & _).
  unfold role, release_of. rewrite E. cbn [tarballs major minor revision __init__].
  rewrite compiler_rt_entry. clear E H.
  destruct v as [M m r ext tb]; cbn [major minor revision] in *.
  repeat split.
  - unfold before. destruct (negb _); [|reflexivity].
    destruct r; zbool; intros; discriminate.
  - intros B W. apply String.eqb_neq in W. rewrite W. revert B.
    unfold before. destruct r; zbool; intros; discriminate.
  - intros ->. reflexivity.
Qed.

Lemma C6_runtime_presence_witness :
  role (__init__ "Linux" 3 1 None) "compiler-rt" = Returned (Some "compiler-rt").
Proof.
  apply (C6_runtime_presence "Linux" "3.1" _ eq_refl); [reflexivity | discriminate].
Defined.

(** C7: the libcxx archive is present exactly when the host is Darwin and
    the version is at least 3.3; otherwise it is absent. *)
Theorem C7_standard_library_presence (sys s : string) (v : LLVMVersionDetails) :
  fromVersionString sys s = Returned (Some v) ->
  (role v "libcxx" = Returned (Some "libcxx") \/ role v "libcxx" = Returned None)
  /\ (role v "libcxx" = Returned (Some "libcxx") <->
      sys = "Darwin" /\ before (release_of v) (3, 3, None) = false).
Proof.
  intros H. destruct (parsed_is_init _ _ _ H) as (E & _).
  unfold role, release_of. rewrite E. cbn [tarballs major minor revision __init__].
  rewrite libcxx_entry. clear E H.
  destruct v as [M m r ext tb]; cbn [major minor revision] in *.
  split.
  - destruct (_ && _); auto.
  - destruct (String.eqb_spec sys "Darwin") as [D | D]; cbn [andb].
    + unfold before. destruct r; zbool; intuition discriminate.
    + split; [discriminate | intros [? _]; contradiction].
Qed.

Lemma C7_standard_library_presence_witness :
  role (__init__ "Darwin" 3 3 None) "libcxx" = Returned (Some "libcxx").
Proof.
  apply (C7_standard_library_presence "Darwin" "3.3" _ eq_refl).
  split; reflexivity.
Defined.

(** ** Archive file names and URLs *)




Example filename_of_core_3_4_2 :
  tarballURL (__init__ "Linux" 3 4 (Some 2)) "llvm"
  = Returned (Some "http://llvm.org/releases/3.4.2/llvm-3.4.2.src.tar.gz").
Proof. reflexivity. Qed.

(** ** The build type *)

(** C9, as stated, fails: given a build type outside the four allowed values,
    [LLVMBuilder.build] checks nothing; it creates the build directory and
    runs the configure, compile and install commands with that build type,
    and returns the installation directory. *)
Lemma C9_counterexample_build_does_not_validate :
  in_list "Bogus" CmakeBuildTypes = false
  /\ run calm tt
       (build "Linux" "/" (__init__ "Linux" 3 4 (Some 1)) "Bogus"
              "/usr/local/llvm" true false)
     = ([act os_getcwd;
         act (os_makedirs "/work/llvm-src/build");
         act (Popen_communicate
                {| command := ["ninja"; "--version"]; stdout_piped := true;
                   stdin_piped := false; universal_newlines := false;
                   cwd := None; env := None |} None);
         shown ["cmake"; "-DCMAKE_INSTALL_PREFIX=/usr/local/llvm/3.4.1-Bogus";
                "-DCMAKE_BUILD_TYPE=Bogus"; "-DLLVM_ENABLE_EH=true";
                "-DLLVM_ENABLE_RTTI=true"; "-DLLVM_INCLUDE_TESTS=false";
                "-G"; "Ninja"; ".."] "/work/llvm-src/build";
         shown ["cmake"; "--build"; "."] "/work/llvm-src/build";
         shown ["cmake"; "--build"; "."; "--target"; "install"]
               "/work/llvm-src/build"],
        Returned "/usr/local/llvm/3.4.1-Bogus").
Proof. split; reflexivity. Qed.

(** C9, amended: once the command line is parsed, the check of the build
    type is the first thing the entry point does, whatever follows it in the
    script.  For a build type outside
    the four allowed values the run ends in an exception and does nothing
    but print; when printing succeeds it prints the two lines of the report
    and exits with status 1.  For an allowed build type the script goes on.
    [LLVMBuilder.build] itself checks nothing. *)
Theorem C9_entry_point_validates_build_type
    (dispatch : Namespace -> prog unit) (w : world) (st : state w)
    (args : Namespace) :
  (in_list (buildtype args) CmakeBuildTypes = true ->
   main dispatch args = dispatch args)
  /\ (in_list (buildtype args) CmakeBuildTypes = false ->
      exists t e,
        run w st (main dispatch args) = (t, Raised e)
        /\ Forall is_print t
        /\ ((forall st' line, fst (answer w unit st' (print line)) = Returned tt) ->
            t = invalid_build_type_report (buildtype args)
            /\ e = SystemExit 1)).
Proof.
  unfold main. split; intros V; rewrite V; cbn [negb]; [reflexivity|].
  set (m1 := "Error: invalid build type " ++ dquote ++ buildtype args ++ dquote).
  set (m2 := "Valid build types: " ++ join ", " CmakeBuildTypes).
  assert (P1 : is_print (act (print m1))) by (now exists m1).
  assert (P2 : is_print (act (print m2))) by (now exists m2).
  cbn [run pbind call sys_exit].
  destruct (answer w unit st (print m1)) as [[[]|e1] st1] eqn:A1.
  - cbn [run pbind]. 
    destruct (answer w unit st1 (print m2)) as [[[]|e2] st2] eqn:A2.
    + cbn [run pbind]. do 2 eexists. split; [reflexivity|].
      split; [repeat constructor; assumption|]. intros _. split; reflexivity.
    + cbn [run pbind]. do 2 eexists. split; [reflexivity|].
      split; [repeat constructor; assumption|].
      intros Q. specialize (Q st1 m2). rewrite A2 in Q. discriminate.
  - cbn [run pbind]. do 2 eexists. split; [reflexivity|].
    split; [repeat constructor; assumption|].
    intros Q. specialize (Q st m1). rewrite A1 in Q. discriminate.
Qed.

Lemma C9_entry_point_validates_build_type_witness :
  run calm tt
    (main (fun args =>
             build "Linux" "/" (__init__ "Linux" 3 4 (Some 1)) (buildtype args)
                   "/usr/local/llvm" true true ;;; Ret tt)
          {| list_ := false; remove := false; install := true;
             no_cleanup := false; version := "3.4.1"; buildtype := "Bogus" |})
  = (invalid_build_type_report "Bogus", Raised (SystemExit 1)).
Proof.
  destruct (proj2 (C9_entry_point_validates_build_type
                     (fun args =>
                        build "Linux" "/" (__init__ "Linux" 3 4 (Some 1))
                              (buildtype args) "/usr/local/llvm" true true ;;; Ret tt)
                     calm tt
                     {| list_ := false; remove := false; install := true;
                        no_cleanup := false; version := "3.4.1";
                        buildtype := "Bogus" |}) eq_refl)
    as (t & e & R & _ & Q).
  destruct (Q (fun _ _ => eq_refl)) as [-> ->]. exact R.
Defined.

(** Whatever the build type and the host, [LLVMBuilder.build] starts by
    asking for the working directory and creating the build directory under
    it: no check comes first. *)
Lemma build_begins_with_makedirs (w : world) (st st1 : state w)
    (sys sep : string) (v : LLVMVersionDetails)
    (buildType root here : string) (showProgress cleanup : bool) :
  answer w string st os_getcwd = (Returned here, st1) ->
  exists t r,
    run w st (build sys sep v buildType root showProgress cleanup)
    = (act os_getcwd :: act (os_makedirs (here ++ "/llvm-src/build")) :: t, r).
Proof.
  intros G. unfold build. cbn [run pbind call]. rewrite G. cbn [pbind run].
  destruct (answer w unit st1 (os_makedirs _)) as [a st2].
  match goal with
  | |- context [run w st2 ?p] => destruct (run w st2 p) as [t r]
  end.
  now exists t, r.
Qed.

Example empty_string_rejected (sys : string) : rejects sys "".
Proof. reflexivity. Qed.

Example tests_rejectThese (sys : string) :
  Forall (rejects sys) ["hg"; "3."; "1.2.3.4"; "-3.7.0"; "2.5"; "2.6.1"; "3.5"].
Proof. repeat constructor. Qed.

Example tests_acceptThese (sys : string) :
  Forall (accepts sys) ["3.7.0"; "2.6"; "3.4"; "3.4.1"; "3.5.0"].
Proof. repeat constructor; eexists; reflexivity. Qed.

(** * Further properties of [LLVMVersionDetails] *)

Lemma split_length (s : string) :
  List.length (split "." s) = S (count_dots s).
Proof.
  induction s as [|c r IH]; [reflexivity|]. cbn [split count_dots].
  destruct (Ascii.eqb c ".").
  - cbn [List.length]. now rewrite IH.
  - destruct (split "." r) as [|x xs]; [discriminate|exact IH].
Qed.

(** X1: a string is accepted only with one dot (then the revision is absent)
    or with two dots (then a revision is present). *)
Theorem X1_accepted_dots (sys s : string) (v : LLVMVersionDetails) :
  fromVersionString sys s = Returned (Some v) ->
  (count_dots s = 1%nat /\ revision v = None)
  \/ (count_dots s = 2%nat /\ exists r, revision v = Some r).
Proof.
  rewrite fromVersionString_cases.
  destruct (components s) as [version|e] eqn:C; [|discriminate].
  apply comprehension_length in C. rewrite split_length in C.
  destruct version as [|v0 [|v1 [|v2 [|v3 rest]]]]; try discriminate.
  - destruct (two_ok v0 v1); [|discriminate].
    intros H; inversion H; subst v. left. split; [|reflexivity].
    simpl in C. congruence.
  - destruct (three_ok v0 v1 v2); [|discriminate].
    intros H; inversion H; subst v. right. split; [|now exists v2].
    simpl in C. congruence.
Qed.

Lemma X1_accepted_dots_witness :
  count_dots "3.4.1" = 2%nat /\ exists r, revision (__init__ "Linux" 3 4 (Some 1)) = Some r.
Proof.
  destruct (X1_accepted_dots "Linux" "3.4.1" (__init__ "Linux" 3 4 (Some 1)) eq_refl)
    as [[_ H] | H]; [discriminate H | exact H].
Defined.

(** X2: two parsed versions with the same canonical string are the same
    version: the installation directories of different versions differ. *)
Theorem X2_canonical_string_injective (sys s1 s2 : string)
    (v1 v2 : LLVMVersionDetails) :
  fromVersionString sys s1 = Returned (Some v1) ->
  fromVersionString sys s2 = Returned (Some v2) ->
  __str__ v1 = __str__ v2 ->
  v1 = v2.
Proof.
  intros H1 H2 E.
  destruct (parsed_is_init _ _ _ H1) as (E1 & _).
  destruct (parsed_is_init _ _ _ H2) as (E2 & _).
  pose proof (components_of___str__ sys (major v1) (minor v1) (revision v1)) as C1.
  pose proof (components_of___str__ sys (major v2) (minor v2) (revision v2)) as C2.
  rewrite <- E1 in C1. rewrite <- E2 in C2. rewrite E, C2 in C1.
  rewrite E1, E2.
  destruct (revision v1), (revision v2); inversion C1; subst; reflexivity.
Qed.

Lemma X2_canonical_string_injective_witness :
  __init__ "Linux" 3 4 (Some 1) = __init__ "Linux" 3 4 (Some 1).
Proof.
  exact (X2_canonical_string_injective "Linux" "3.4.1" " 3.04.1 "
           (__init__ "Linux" 3 4 (Some 1)) (__init__ "Linux" 3 4 (Some 1))
           eq_refl eq_refl eq_refl).
Defined.

Lemma init_keys (sys : string) (M m : Z) (r : option Z) :
  keys (_listTarballs sys M m r) = roles.
Proof. unfold _listTarballs. case_conditions. Qed.

Lemma llvm_entry (sys : string) (M m : Z) (r : option Z) :
  dict_get (_listTarballs sys M m r) "llvm" = Returned (Some "llvm").
Proof. unfold _listTarballs. case_conditions. Qed.

(** X3: what the parser accepts, and the major, minor, revision and
    extension it returns, do not depend on the host; nor do the entries of
    the llvm and clang archives. *)
Theorem X3_parse_host_independent (sys1 sys2 s : string) :
  match fromVersionString sys1 s, fromVersionString sys2 s with
  | Returned (Some v1), Returned (Some v2) =>
      release_of v1 = release_of v2 /\ extension v1 = extension v2
      /\ role v1 "llvm" = role v2 "llvm" /\ role v1 "clang" = role v2 "clang"
  | Returned None, Returned None => True
  | _, _ => False
  end.
Proof.
  rewrite !fromVersionString_cases.
  destruct (components s) as [version|e]; [|exact I].
  destruct version as [|v0 [|v1 [|v2 [|v3 rest]]]]; try exact I.
  - destruct (two_ok v0 v1); [|exact I].
    unfold role. cbn [tarballs __init__]. rewrite !clang_entry, !llvm_entry. now repeat split.
  - destruct (three_ok v0 v1 v2); [|exact I].
    unfold role. cbn [tarballs __init__]. rewrite !clang_entry, !llvm_entry. now repeat split.
Qed.

Lemma dict_get_keys {V : Type} (d : dict V) (k : string) :
  (In k (keys d) -> exists v, dict_get d k = Returned v)
  /\ (~ In k (keys d) -> dict_get d k = Raised (KeyError k)).
Proof.
  induction d as [|[k' v'] d IH]; simpl.
  - split; [contradiction | reflexivity].
  - destruct (String.eqb_spec k' k) as [-> | N].
    + split; [eauto | intros H; exfalso; apply H; now left].
    + destruct IH as [IH1 IH2]. split.
      * intros [E | I]; [contradiction | now apply IH1].
      * intros H. apply IH2. intros I. apply H. now right.
Qed.

Lemma parsed_keys (sys s : string) (v : LLVMVersionDetails) :
  fromVersionString sys s = Returned (Some v) -> keys (tarballs v) = roles.
Proof.
  intros H. destruct (parsed_is_init _ _ _ H) as (E & _).
  rewrite E. apply init_keys.
Qed.

(** X4: the archive table of a parsed version has exactly the four roles
    llvm, clang, compiler-rt and libcxx, in this order, and the llvm archive
    is always present, under the name [llvm]. *)
Theorem X4_table_roles (sys s : string) (v : LLVMVersionDetails) :
  fromVersionString sys s = Returned (Some v) ->
  keys (tarballs v) = roles /\ role v "llvm" = Returned (Some "llvm").
Proof.
  intros H. destruct (parsed_is_init _ _ _ H) as (E & _).
  unfold role. rewrite E. cbn [tarballs __init__].
  split; [apply init_keys | apply llvm_entry].
Qed.

Lemma X4_table_roles_witness :
  keys (tarballs (__init__ "Windows" 2 6 None)) = roles
  /\ role (__init__ "Windows" 2 6 None) "llvm" = Returned (Some "llvm").
Proof. exact (X4_table_roles "Windows" "2.6" _ eq_refl). Defined.

(** X5: for a parsed version, the file name and the URL of a name that is
    not one of the four roles are a [KeyError]; for the four roles neither
    raises, and the URL is [None] exactly when the file name is, which is
    when the role is absent. *)
Theorem X5_filename_url_errors (sys s : string) (v : LLVMVersionDetails)
    (name : string) :
  fromVersionString sys s = Returned (Some v) ->
  (~ In name roles ->
   tarballFilename v name = Raised (KeyError name)
   /\ tarballURL v name = Raised (KeyError name))
  /\ (In name roles ->
      (role v name = Returned None
       /\ tarballFilename v name = Returned None
       /\ tarballURL v name = Returned None)
      \/ (exists base f u,
            role v name = Returned (Some base)
            /\ tarballFilename v name = Returned (Some f)
            /\ tarballURL v name = Returned (Some u))).
Proof.
  intros H. pose proof (parsed_keys sys s v H) as K.
  unfold role, tarballURL, tarballFilename.
  destruct (dict_get_keys (tarballs v) name) as [P A]. rewrite K in P, A.
  split.
  - intros N. rewrite (A N). split; reflexivity.
  - intros I. destruct (P I) as [[base|] ->]; cbn [bind].
    + right. do 3 eexists. repeat split.
    + left. repeat split.
Qed.


Lemma X5_filename_url_errors_witness :
  tarballFilename (__init__ "Linux" 3 4 None) "lldb" = Raised (KeyError "lldb")
  /\ tarballURL (__init__ "Linux" 3 4 None) "lldb" = Raised (KeyError "lldb").
Proof.
  apply (X5_filename_url_errors "Linux" "3.4" _ "lldb" eq_refl).
  simpl. intuition discriminate.
Defined.

(** X6: whenever the libcxx archive is present for a parsed version, so is
    the compiler-rt archive. *)
Theorem X6_libcxx_needs_compiler_rt (sys s : string) (v : LLVMVersionDetails)
    (base : string) :
  fromVersionString sys s = Returned (Some v) ->
  role v "libcxx" = Returned (Some base) ->
  base = "libcxx" /\ role v "compiler-rt" = Returned (Some "compiler-rt").
Proof.
  intros H. destruct (parsed_is_init _ _ _ H) as (E & _).
  unfold role. rewrite E. cbn [tarballs __init__].
  rewrite libcxx_entry, compiler_rt_entry.
  destruct (String.eqb_spec sys "Darwin") as [-> | N]; cbn [andb]; [|discriminate].
  change ("Darwin" =? "Windows")%string with false. cbn [negb andb].
  generalize (major v) (minor v). intros M m. zbool; intros L; inversion L; auto.
Qed.

Lemma X6_libcxx_needs_compiler_rt_witness :
  "libcxx" = "libcxx"
  /\ role (__init__ "Darwin" 3 9 (Some 0)) "compiler-rt"
     = Returned (Some "compiler-rt").
Proof.
  exact (X6_libcxx_needs_compiler_rt "Darwin" "3.9.0" _ "libcxx" eq_refl eq_refl).
Defined.

Lemma role_base (sys s : string) (v : LLVMVersionDetails) (name base : string) :
  fromVersionString sys s = Returned (Some v) ->
  role v name = Returned (Some base) ->
  (name = "llvm" /\ base = "llvm")
  \/ (name = "clang" /\ (base = "clang" \/ base = "cfe"))
  \/ (name = "compiler-rt" /\ base = "compiler-rt")
  \/ (name = "libcxx" /\ base = "libcxx").
Proof.
  intros H R. pose proof (parsed_keys sys s v H) as K.
  destruct (dict_get_keys (tarballs v) name) as [_ A]. rewrite K in A.
  assert (I : In name roles).
  { destruct (in_dec string_dec name roles) as [I | N]; [exact I|].
    unfold role in R. rewrite (A N) in R. discriminate. }
  destruct (parsed_is_init _ _ _ H) as (E & _).
  unfold role in R. rewrite E in R. cbn [tarballs __init__] in R.
  destruct I as [<- | [<- | [<- | [<- | []]]]].
  - rewrite llvm_entry in R. inversion R. auto.
  - rewrite clang_entry in R. inversion R. right; left. split; [reflexivity|].
    destruct (_ || _); auto.
  - rewrite compiler_rt_entry in R. destruct (_ && _); inversion R. auto.
  - rewrite libcxx_entry in R. destruct (_ && _); inversion R. auto 6.
Qed.

(** X7: two different roles present for a parsed version never have the
    same archive file name, so no download overwrites another. *)
Theorem X7_filenames_distinct (sys s : string) (v : LLVMVersionDetails)
    (n1 n2 f1 f2 : string) :
  fromVersionString sys s = Returned (Some v) ->
  n1 <> n2 ->
  tarballFilename v n1 = Returned (Some f1) ->
  tarballFilename v n2 = Returned (Some f2) ->
  f1 <> f2.
Proof.
  intros H N F1 F2.
  assert (B : forall n f, tarballFilename v n = Returned (Some f) ->
                          exists base rest,
                            role v n = Returned (Some base) /\ f = base ++ "-" ++ rest).
  { intros n f F. unfold tarballFilename in F. unfold role.
    destruct (dict_get (tarballs v) n) as [[base|]|]; try discriminate.
    cbn [bind] in F. inversion F. do 2 eexists. split; reflexivity. }
  destruct (B _ _ F1) as (b1 & r1 & R1 & ->).
  destruct (B _ _ F2) as (b2 & r2 & R2 & ->).
  destruct (role_base _ _ _ _ _ H R1) as [[-> ->] | [[-> [-> | ->]] | [[-> ->] | [-> ->]]]];
    destruct (role_base _ _ _ _ _ H R2) as [[-> ->] | [[-> [-> | ->]] | [[-> ->] | [-> ->]]]];
    try (exfalso; apply N; reflexivity); cbn [append]; congruence.
Qed.

Lemma X7_filenames_distinct_witness :
  "clang-3.2.src.tar.gz" <> "compiler-rt-3.2.src.tar.gz".
Proof.
  refine (X7_filenames_distinct "Linux" "3.2" (__init__ "Linux" 3 2 None)
            "clang" "compiler-rt" _ _ eq_refl _ eq_refl eq_refl).
  discriminate.
Defined.

(** X8: for a parsed version the extension tells the band of the version:
    [.tgz] exactly for 2.7 and every later 2.x, [.tar.gz] exactly for 2.6
    and 3.0, [.src.tar.gz] exactly for 3.1 to 3.4.x, [.src.tar.xz] exactly
    from 3.5 on. *)
Theorem X8_extension_partition (sys s : string) (v : LLVMVersionDetails) :
  fromVersionString sys s = Returned (Some v) ->
  (extension v = ".tgz" <-> major v = 2 /\ 7 <= minor v)
  /\ (extension v = ".tar.gz" <->
      (major v = 2 /\ minor v = 6) \/ (major v = 3 /\ minor v = 0))
  /\ (extension v = ".src.tar.gz" <-> major v = 3 /\ 1 <= minor v <= 4)
  /\ (extension v = ".src.tar.xz" <-> 3 < major v \/ (major v = 3 /\ 5 <= minor v)).
Proof.
  intros H. destruct (parsed_is_init _ _ _ H) as (E & P0 & P1 & P26 & _).
  rewrite E. cbn [extension major minor __init__]. clear E H.
  generalize dependent (minor v). generalize dependent (major v).
  intros M P0 m P1 P26. unfold _determineExtenion.
  zbool; repeat split; intros; solve [discriminate | reflexivity | lia].
Qed.

Lemma X8_extension_partition_witness :
  extension (__init__ "Linux" 2 10 None) = ".tgz".
Proof.
  apply (X8_extension_partition "Linux" "2.10" _ eq_refl). split; [reflexivity|].
  cbn. discriminate.
Defined.

(** X9: the version string of an archive differs from the canonical string
    of the version exactly for the compiler-rt and libcxx archives of a 3.4
    version that has a revision. *)
Theorem X9_role_version_differs (v : LLVMVersionDetails) (name : string) :
  _tarballVersionString v name <> __str__ v <->
  (major v = 3 /\ minor v = 4 /\ revision v <> None
   /\ (name = "compiler-rt" \/ name = "libcxx")).
Proof.
  unfold _tarballVersionString, __str__, in_list. cbn [existsb].
  rewrite orb_false_r.
  destruct (String.eqb_spec name "compiler-rt") as [C | C];
    destruct (String.eqb_spec name "libcxx") as [L | L]; cbn [orb andb];
    destruct (Z.eqb_spec (major v) 3) as [M | M]; cbn [andb];
    try (destruct (Z.eqb_spec (minor v) 4) as [m | m]);
    try (split; [intros F; exfalso; apply F; reflexivity | intuition congruence]);
    rewrite M, m; destruct (revision v) as [r|];
    try (split; [intros F; exfalso; apply F; reflexivity | intuition congruence]);
    (split; [intros _; repeat split; auto; discriminate
            | intros _; rewrite append_assoc; cbn; intros F; inversion F]).
Qed.

(** * Runs of [Utility] and [LLVMBuilder] *)

Lemma run_exec {A : Type} (w : world) (p : prog A) :
  forall s, run w s p = fst (exec w s p).
Proof.
  induction p as [a|e|X ev k IH]; intros s; cbn [run exec]; try reflexivity.
  destruct (answer w X s ev) as [r s']. rewrite IH.
  destruct (exec w s' (k r)) as [[t res] s'']. reflexivity.
Qed.

Lemma exec_pbind {A B : Type} (w : world) (p : prog A) (f : A -> prog B) :
  forall s,
    exec w s (pbind p f)
    = let '(t1, r1, s1) := exec w s p in
      match r1 with
      | Returned a => let '(t2, r2, s2) := exec w s1 (f a) in
                      ((t1 ++ t2)%list, r2, s2)
      | Raised e => (t1, Raised e, s1)
      end.
Proof.
  induction p as [a|e|X ev k IH]; intros s; cbn [pbind exec].
  - destruct (exec w s (f a)) as [[t2 r2] s2]. reflexivity.
  - reflexivity.
  - destruct (answer w X s ev) as [r s']. rewrite IH.
    destruct (exec w s' (k r)) as [[t1 r1] s1].
    destruct r1 as [a|e]; [|reflexivity].
    destruct (exec w s1 (f a)) as [[t2 r2] s2]. reflexivity.
Qed.

Lemma emits_run {A : Type} (P : action -> Prop) (w : world) (p : prog A) :
  emits P p -> forall s, Forall P (fst (run w s p)).
Proof.
  induction 1 as [a|e|X ev k Hev Hk IH]; intros s; cbn [run]; try constructor.
  destruct (answer w X s ev) as [r s'].
  specialize (IH r s'). destruct (run w s' (k r)) as [t res].
  constructor; assumption.
Qed.

Lemma emits_pbind {A B : Type} (P : action -> Prop) (p : prog A) (f : A -> prog B) :
  emits P p -> (forall a, emits P (f a)) -> emits P (pbind p f).
Proof.
  induction 1 as [a|e|X ev k Hev Hk IH]; intros Hf; cbn [pbind].
  - apply Hf.
  - constructor.
  - constructor; [assumption | intros r; now apply IH].
Qed.

Lemma emits_call {X : Type} (P : action -> Prop) (ev : event X) :
  P (act ev) -> emits P (call ev).
Proof. intros H. constructor; [assumption|]. intros [x|e]; constructor. Qed.

Lemma emits_lift {A : Type} (P : action -> Prop) (r : pyresult A) :
  emits P (lift r).
Proof. destruct r; constructor. Qed.

Lemma emits_for_each {A : Type} (P : action -> Prop) (l : list A)
    (body : A -> prog unit) :
  (forall x, In x l -> emits P (body x)) -> emits P (for_each l body).
Proof.
  induction l as [|x xs IH]; intros H; cbn [for_each]; [constructor|].
  apply emits_pbind; [apply H; now left|]. intros _. apply IH.
  intros y I. apply H. now right.
Qed.

Lemma emits_weaken {A : Type} (P Q : action -> Prop) (p : prog A) :
  (forall a, P a -> Q a) -> emits P p -> emits Q p.
Proof.
  intros PQ. induction 1 as [a|e|X ev k Hev Hk IH]; constructor; auto.
Qed.

Ltac emits_step :=
  match goal with
  | |- emits _ (pbind _ _) => apply emits_pbind; [|intros]
  | |- emits _ (call _) => apply emits_call
  | |- emits _ (lift _) => apply emits_lift
  | |- emits _ (Ret _) => constructor
  | |- emits _ (Throw _) => constructor
  | |- emits _ (Call _ _) => constructor; [|intros]
  | |- emits _ (if ?b then _ else _) => destruct b
  | |- emits _ (match ?x with _ => _ end) => destruct x
  end.

(** X10: [commandSucceeded] runs the command once, never raises, and answers
    [True] exactly when the command could be started and exited with
    status 0. *)
Theorem X10_commandSucceeded (w : world) (st : state w) (command : list string) :
  exists b,
    run w st (commandSucceeded command) = ([act (probe command)], Returned b)
    /\ (b = true <->
        exists proc, fst (answer w process st (probe command)) = Returned proc
                     /\ returncode proc = 0).
Proof.
  unfold commandSucceeded. fold (probe command). cbn [run].
  destruct (answer w process st (probe command)) as [[proc|e] st'];
    cbn [run fst].
  - exists (returncode proc =? 0). split; [reflexivity|].
    rewrite Z.eqb_eq. split.
    + intros E. now exists proc.
    + intros (p & E & R). now inversion E; subst.
  - exists false. split; [reflexivity|].
    split; [discriminate | intros (p & E & _); discriminate].
Qed.

(** X11: [runOrFail] runs the command once.  It returns when the exit status
    is 0.  Otherwise it raises the failure of the command, having printed
    nothing when the output was shown or suppressed, and the captured output
    and errors when it was captured. *)
Theorem X11_runOrFail (w : world) (st : state w) (command : list string)
    (cwd : option string) (env : option (dict string)) (input : option string)
    (showOutput suppress : bool) (proc : process) :
  fst (answer w process st (spawn command cwd env input showOutput))
  = Returned proc ->
  let r := run w st (runOrFail command cwd env input showOutput suppress) in
  let popen := act (spawn command cwd env input showOutput) in
  (returncode proc = 0 -> r = ([popen], Returned tt))
  /\ (returncode proc <> 0 -> showOutput || suppress = true ->
      r = ([popen], Raised (CommandFailed command (returncode proc))))
  /\ (returncode proc <> 0 -> showOutput || suppress = false ->
      exists t e, r = (popen :: t, Raised e)
                  /\ Forall is_print t
                  /\ (prints_succeed w ->
                      t = [act (print (str_opt (stdout proc)));
                           act (print (str_opt (stderr proc)))]
                      /\ e = CommandFailed command (returncode proc))).
Proof.
  intros A r popen. subst r popen. unfold runOrFail.
  fold (spawn command cwd env input showOutput).
  cbn [run pbind call].
  destruct (answer w process st (spawn command cwd env input showOutput))
    as [a st1]. cbn [fst] in A. subst a. cbn [pbind run].
  destruct (Z.eqb_spec (returncode proc) 0) as [Z0 | NZ]; cbn [negb].
  - split; [reflexivity | split; intros; contradiction].
  - split; [intros; contradiction|].
    split; intros _ F.
    + assert (E : negb showOutput && negb suppress = false)
        by (destruct showOutput, suppress; try discriminate; reflexivity).
      rewrite E. reflexivity.
    + assert (E : negb showOutput && negb suppress = true)
        by (destruct showOutput, suppress; try discriminate; reflexivity).
      rewrite E. cbn [pbind call run].
      set (m1 := str_opt (stdout proc)). set (m2 := str_opt (stderr proc)).
      assert (P1 : is_print (act (print m1))) by (now exists m1).
      assert (P2 : is_print (act (print m2))) by (now exists m2).
      destruct (answer w unit st1 (print m1)) as [[[]|e1] st2] eqn:A1;
        cbn [pbind run call].
      * destruct (answer w unit st2 (print m2)) as [[[]|e2] st3] eqn:A2;
          cbn [pbind run call]; do 2 eexists; (split; [reflexivity|]);
          (split; [repeat constructor; assumption|]); intros Q.
        -- split; reflexivity.
        -- specialize (Q st2 m2). rewrite A2 in Q. discriminate.
      * do 2 eexists. split; [reflexivity|].
        split; [repeat constructor; assumption|]. intros Q.
        specialize (Q st1 m1). rewrite A1 in Q. discriminate.
Qed.

(** X12: [removeIfExists] reads the host and deletes nothing but the path it
    is given; when the path does not exist it deletes nothing at all. *)
Theorem X12_removeIfExists (w : world) (st : state w) (sys item : string) :
  let r := run w st (removeIfExists sys item) in
  Forall (fun a => is_query a = true \/ removal a = Some item) (fst r)
  /\ (fst (answer w bool st (os_path_lexists item)) = Returned false ->
      r = ([act (os_path_lexists item)], Returned tt)).
Proof.
  split.
  - apply emits_run. unfold removeIfExists, _rmtree.
    repeat emits_step; cbn; auto.
  - intros F. unfold removeIfExists. cbn [run pbind call].
    destruct (answer w bool st (os_path_lexists item)) as [a st1].
    cbn [fst] in F. subst a. reflexivity.
Qed.

Lemma tarballFilename_of_key (v : LLVMVersionDetails) (name : string) :
  In name (keys (tarballs v)) ->
  exists r, tarballFilename v name = Returned r.
Proof.
  intros I. unfold tarballFilename.
  destruct (proj1 (dict_get_keys (tarballs v) name) I) as [[base|] ->];
    cbn [bind]; eauto.
Qed.

Lemma cleanupFiles_emits (sys : string) (v : LLVMVersionDetails) :
  emits (fun a => is_query a = true
                  \/ exists path, removal a = Some path /\ cleanup_target v path)
        (cleanupFiles sys v).
Proof.
  unfold cleanupFiles. apply emits_for_each.
  intros name I. destruct (tarballFilename_of_key v name I) as [[f|] F];
    rewrite F; cbn [lift pbind]; [|constructor].
  assert (T : forall here path,
             path = here ++ "/" ++ f \/ path = here ++ "/" ++ name ++ "-src" ->
             emits (fun a => is_query a = true
                             \/ exists p, removal a = Some p /\ cleanup_target v p)
                   (removeIfExists sys path)).
  { intros here path E.
    apply emits_weaken
      with (P := fun a => is_query a = true \/ removal a = Some path).
    - intros a [Q | R]; [now left|]. right. exists path. split; [exact R|].
      now exists here, name, f.
    - unfold removeIfExists, _rmtree. repeat emits_step; cbn; auto. }
  apply emits_pbind; [apply emits_call; now left|]. intros here1.
  apply emits_pbind; [apply (T here1); now left|]. intros _.
  apply emits_pbind; [apply emits_call; now left|]. intros here2.
  apply (T here2). now right.
Qed.


Lemma emits_commandSucceeded (P : action -> Prop) (c : list string) :
  P (act (probe c)) -> emits P (commandSucceeded c).
Proof. intros H. constructor; [exact H|]. intros [x|e]; constructor. Qed.

Lemma emits_runOrFail (P : action -> Prop) (c : list string) cwd env input sh su :
  P (act (spawn c cwd env input sh)) ->
  (forall line, P (act (print line))) ->
  emits P (runOrFail c cwd env input sh su).
Proof.
  intros H Hp. unfold runOrFail. repeat emits_step; auto.
Qed.

(** X14: on a host other than Windows, [build] runs no command but the
    ninja probe and cmake, touches no other tool chain, and copies
    nothing. *)
Theorem X14_build_posix_commands (w : world) (st : state w) (sys sep : string)
    (v : LLVMVersionDetails) (buildType root : string)
    (showProgress cleanup : bool) :
  sys <> "Windows" ->
  Forall (fun a => (exists c, popen_command a = Some c
                              /\ (hd "" c = "ninja" \/ hd "" c = "cmake"))
                   \/ is_query a = true \/ created a <> None
                   \/ removal a <> None \/ printed a <> None)
         (fst (run w st (build sys sep v buildType root showProgress cleanup))).
Proof.
  intros NW. apply String.eqb_neq in NW.
  apply emits_run. unfold build, Windows. rewrite NW. cbn [negb pbind].
  repeat first
    [ apply emits_runOrFail;
      [left; eexists; split; [reflexivity|]; cbn; auto
      | intros; do 4 right; discriminate]
    | apply emits_commandSucceeded; left; eexists; split; [reflexivity|]; cbn; auto
    | emits_step ];
    try (right; cbn; auto; fail);
    try (do 2 right; left; discriminate).
  apply emits_weaken with (2 := cleanupFiles_emits sys v).
  intros a5 [Q | (p & R & _)]; [auto|].
  do 3 right. left. rewrite R. discriminate.
Qed.

Lemma X14_build_posix_commands_witness :
  Forall (fun a => (exists c, popen_command a = Some c
                              /\ (hd "" c = "ninja" \/ hd "" c = "cmake"))
                   \/ is_query a = true \/ created a <> None
                   \/ removal a <> None \/ printed a <> None)
         (fst (run calm tt
                   (build "Darwin" "/" (__init__ "Darwin" 3 9 (Some 0)) "Release"
                          "/usr/local/llvm" true true))).
Proof.
  apply (X14_build_posix_commands calm tt "Darwin"). discriminate.
Defined.

Lemma build_no_cleanup_emits (sys sep : string) (v : LLVMVersionDetails)
    (buildType root : string) (showProgress : bool) :
  emits (fun a => removal a = None)
        (build sys sep v buildType root showProgress false).
Proof.
  unfold build.
  repeat first
    [ apply emits_runOrFail; [reflexivity | reflexivity]
    | apply emits_commandSucceeded; reflexivity
    | emits_step ];
    reflexivity.
Qed.

(** X15: [build] called without cleanup deletes nothing, on any host and
    whatever happens. *)
Theorem X15_build_no_cleanup_deletes_nothing (w : world) (st : state w)
    (sys sep : string) (v : LLVMVersionDetails) (buildType root : string)
    (showProgress : bool) :
  Forall (fun a => removal a = None)
         (fst (run w st (build sys sep v buildType root showProgress false))).
Proof. apply emits_run, build_no_cleanup_emits. Qed.



Lemma exec_commandSucceeded (w : world) (c : list string)
    (s s' : state w) (t : list action) (r : pyresult bool) :
  exec w s (commandSucceeded c) = (t, r, s') ->
  t = [act (probe c)] /\ exists b, r = Returned b.
Proof.
  unfold commandSucceeded. fold (probe c). cbn [exec].
  destruct (answer w process s (probe c)) as [[proc|e] s1]; cbn [exec];
    intros H; inversion H; subst; eauto.
Qed.





Lemma stops_pbind {A B : Type} (p : prog A) (f : A -> prog B) :
  stops_at_failed_command p -> (forall a, stops_at_failed_command (f a)) ->
  stops_at_failed_command (pbind p f).
Proof.
  intros Hp Hf w W st t c rc. rewrite run_exec, exec_pbind.
  destruct (exec w st p) as [[t1 r1] s1] eqn:E1.
  assert (R1 : run w st p = (t1, r1)) by (now rewrite run_exec, E1).
  destruct r1 as [a|e].
  - destruct (exec w s1 (f a)) as [[t2 r2] s2] eqn:E2.
    assert (R2 : run w s1 (f a) = (t2, r2)) by (now rewrite run_exec, E2).
    cbn [fst]. intros H; inversion H; subst.
    destruct (Hf a w W s1 _ _ _ R2) as (N & u1 & x & u2 & -> & C & P).
    split; [exact N|]. exists (t1 ++ u1)%list, x, u2.
    now rewrite <- app_assoc.
  - cbn [fst]. intros H; inversion H; subst. exact (Hp w W st _ _ _ R1).
Qed.

Lemma stops_Ret {A : Type} (a : A) : stops_at_failed_command (Ret a).
Proof. intros w W st t c rc H. discriminate H. Qed.

Lemma stops_Throw {A : Type} (e : exn) :
  (forall c rc, e <> CommandFailed c rc) ->
  stops_at_failed_command (@Throw A e).
Proof. intros N w W st t c rc H. inversion H. now apply N in H2. Qed.

Lemma stops_call {X : Type} (ev : event X) : stops_at_failed_command (call ev).
Proof.
  intros w W st t c rc. unfold call. cbn [run].
  destruct (answer w X st ev) as [[x|e] s1] eqn:A; cbn [run]; intros H;
    inversion H; subst.
  destruct (W X st ev (CommandFailed c rc)) as [what F];
    [now rewrite A | discriminate F].
Qed.

Lemma stops_commandSucceeded (c : list string) :
  stops_at_failed_command (commandSucceeded c).
Proof.
  intros w W st t c' rc. rewrite run_exec.
  destruct (exec w st (commandSucceeded c)) as [[t1 r1] s1] eqn:E.
  apply exec_commandSucceeded in E as [_ [b ->]]. discriminate.
Qed.

Lemma stops_runOrFail (c : list string) cwd env input sh su :
  stops_at_failed_command (runOrFail c cwd env input sh su).
Proof.
  intros w W st t c' rc. unfold runOrFail.
  fold (spawn c cwd env input sh). cbn [run pbind call].
  destruct (answer w process st (spawn c cwd env input sh))
    as [[proc|e] s1] eqn:A; cbn [run pbind].
  2:{ intros H; inversion H; subst.
      destruct (W _ st _ _ ltac:(now rewrite A)) as [what F]. discriminate F. }
  destruct (Z.eqb_spec (returncode proc) 0) as [Z0 | NZ]; cbn [negb];
    [discriminate|].
  assert (D : forall t2, Forall is_print t2 ->
              rc = returncode proc -> c' = c ->
              rc <> 0 /\ exists t1 a u,
                (act (spawn c cwd env input sh) :: t2 = t1 ++ a :: u)%list
                /\ popen_command a = Some c' /\ Forall is_print u).
  { intros t2 P -> ->. split; [exact NZ|].
    exists [], (act (spawn c cwd env input sh)), t2. now repeat split. }
  destruct (negb sh && negb su); cbn [pbind run call].
  - set (m1 := str_opt (stdout proc)). set (m2 := str_opt (stderr proc)).
    assert (P1 : is_print (act (print m1))) by (now exists m1).
    assert (P2 : is_print (act (print m2))) by (now exists m2).
    destruct (answer w unit s1 (print m1)) as [[[]|e1] s2] eqn:A1;
      cbn [pbind run call].
    + destruct (answer w unit s2 (print m2)) as [[[]|e2] s3] eqn:A2;
        cbn [pbind run call]; intros H; inversion H; subst.
      * apply D; auto.
      * destruct (W _ s2 _ _ ltac:(now rewrite A2)) as [what F]. discriminate F.
    + intros H; inversion H; subst.
      destruct (W _ s1 _ _ ltac:(now rewrite A1)) as [what F]. discriminate F.
  - intros H; inversion H; subst. apply D; auto.
Qed.

Lemma stops_lift_tarballFilename (v : LLVMVersionDetails) (name : string) :
  stops_at_failed_command (lift (tarballFilename v name)).
Proof.
  unfold tarballFilename.
  destruct (dict_get (tarballs v) name) as [[base|]|e] eqn:G; cbn [bind lift].
  1, 2: apply stops_Ret.
  apply stops_Throw. intros c rc ->. revert G. clear.
  induction (tarballs v) as [|[k x] d IH]; cbn [dict_get]; [discriminate|].
  destruct (String.eqb k name); [discriminate | exact IH].
Qed.

Lemma stops_for_each {A : Type} (l : list A) (body : A -> prog unit) :
  (forall x, stops_at_failed_command (body x)) ->
  stops_at_failed_command (for_each l body).
Proof.
  intros H. induction l as [|x xs IH]; cbn [for_each]; [apply stops_Ret|].
  apply stops_pbind; [apply H | intros _; exact IH].
Qed.

Ltac stops_step :=
  match goal with
  | |- stops_at_failed_command (pbind _ _) => apply stops_pbind; [|intros]
  | |- stops_at_failed_command (call _) => apply stops_call
  | |- stops_at_failed_command (commandSucceeded _) => apply stops_commandSucceeded
  | |- stops_at_failed_command (runOrFail _ _ _ _ _ _) => apply stops_runOrFail
  | |- stops_at_failed_command (lift (tarballFilename _ _)) =>
      apply stops_lift_tarballFilename
  | |- stops_at_failed_command (for_each _ _) => apply stops_for_each; intros
  | |- stops_at_failed_command (Ret _) => apply stops_Ret
  | |- stops_at_failed_command (Throw _) => apply stops_Throw; discriminate
  | |- stops_at_failed_command (if ?b then _ else _) => destruct b
  | |- stops_at_failed_command (match ?x with _ => _ end) => destruct x
  end.

(** X17: on a host whose calls raise nothing but [OSError], when [build]
    raises the failure of a command, that command exited with a non-zero
    status and was the last thing run: after it, [build] only printed.  No
    later step of the build, nor the cleanup, was started. *)
Theorem X17_build_stops_at_failed_command (w : world) (st : state w)
    (sys sep : string) (v : LLVMVersionDetails) (buildType root : string)
    (showProgress cleanup : bool) (t : list action) (c : list string) (rc : Z) :
  raises_only_OSError w ->
  run w st (build sys sep v buildType root showProgress cleanup)
  = (t, Raised (CommandFailed c rc)) ->
  rc <> 0
  /\ exists t1 a t2,
       t = (t1 ++ a :: t2)%list /\ popen_command a = Some c
       /\ Forall is_print t2.
Proof.
  intros W. revert w W st t c rc.
  change (stops_at_failed_command
            (build sys sep v buildType root showProgress cleanup)).
  unfold build, cleanupFiles, removeIfExists, _rmtree.
  repeat stops_step.
Qed.

Lemma host_with_never_raises (status : list string -> Z) :
  raises_only_OSError (host_with status).
Proof.
  intros X st ev e. destruct ev; cbn; discriminate.
Qed.

Lemma X17_build_stops_at_failed_command_witness :
  2 <> 0
  /\ exists t1 a t2,
       [act os_getcwd; act (os_makedirs "/work/llvm-src/build");
        act (probe ["ninja"; "--version"]);
        act (spawn ["cmake"; "-DCMAKE_INSTALL_PREFIX=/usr/local/llvm/3.4.1-Debug";
                    "-DCMAKE_BUILD_TYPE=Debug"; "-DLLVM_ENABLE_EH=true";
                    "-DLLVM_ENABLE_RTTI=true"; "-DLLVM_INCLUDE_TESTS=false";
                    "-G"; "Ninja"; ".."]
                   (Some "/work/llvm-src/build") None None false);
        act (print "out"); act (print "err")]
       = (t1 ++ a :: t2)%list
       /\ popen_command a
          = Some ["cmake"; "-DCMAKE_INSTALL_PREFIX=/usr/local/llvm/3.4.1-Debug";
                  "-DCMAKE_BUILD_TYPE=Debug"; "-DLLVM_ENABLE_EH=true";
                  "-DLLVM_ENABLE_RTTI=true"; "-DLLVM_INCLUDE_TESTS=false";
                  "-G"; "Ninja"; ".."]
       /\ Forall is_print t2.
Proof.
  exact (X17_build_stops_at_failed_command cmake_fails tt "Linux" "/"
           (__init__ "Linux" 3 4 (Some 1)) "Debug" "/usr/local/llvm" false true
           _ _ 2 (host_with_never_raises _) eq_refl).
Defined.

Lemma X11_runOrFail_witness :
  run cmake_fails tt (runOrFail ["cmake"; "--build"; "."] None None None true false)
  = ([act (spawn ["cmake"; "--build"; "."] None None None true)],
     Raised (CommandFailed ["cmake"; "--build"; "."] 2)).
Proof.
  refine (proj1 (proj2 (X11_runOrFail cmake_fails tt ["cmake"; "--build"; "."]
                          None None None true false _ eq_refl)) _ eq_refl).
  discriminate.
Defined.


(** * The names of installed versions *)

Lemma all_digits_no_dash_newline (s : string) :
  all_digits s = true -> no_dash s = true /\ no_newline s = true.
Proof.
  induction s as [|c r IH]; simpl; intros H; [now split|].
  apply andb_true_iff in H as [Hc Hr]. destruct (IH Hr) as [D N].
  rewrite D, N, !andb_true_r. revert Hc. clear. ascii_cases c; intros _; now split.
Qed.

Lemma no_newline_app (a b : string) :
  no_newline (a ++ b) = no_newline a && no_newline b.
Proof.
  induction a as [|c r IH]; simpl; [reflexivity|]. now rewrite IH, andb_assoc.
Qed.

Lemma line_no_newline (s : string) : no_newline s = true -> line s = s.
Proof.
  induction s as [|c r IH]; simpl; intros H; [reflexivity|].
  apply andb_true_iff in H as [Hc Hr]. apply negb_true_iff in Hc.
  now rewrite Hc, (IH Hr).
Qed.

Lemma after_last_dash_no_dash (s : string) :
  no_dash s = true -> after_last_dash s = None.
Proof.
  induction s as [|c r IH]; simpl; intros H; [reflexivity|].
  apply andb_true_iff in H as [Hc Hr]. apply negb_true_iff in Hc.
  now rewrite (IH Hr), Hc.
Qed.

Lemma after_last_dash_app (pre g : string) :
  no_dash g = true -> g <> "" ->
  after_last_dash (pre ++ String "-" g) = Some g.
Proof.
  intros D N. induction pre as [|c r IH]; simpl.
  - rewrite (after_last_dash_no_dash g D). destruct g; [contradiction | reflexivity].
  - now rewrite IH.
Qed.

Lemma str_nonneg (z : Z) :
  0 <= z ->
  exists c r, str z = String c r /\ is_digit c = true /\ all_digits r = true
              /\ Z.of_N (digits_value (digit_value c) r) = z.
Proof.
  intros H. unfold str. destruct (Z.ltb_spec z 0); [lia|].
  destruct (str_N_spec (Z.to_N z)) as (c & r & E & Hc & Hr & V).
  exists c, r. repeat split; try assumption. rewrite V. lia.
Qed.

Lemma digit_value_small (c : ascii) : is_digit c = true -> (digit_value c < 10)%N.
Proof. revert c. intros c H. revert H. ascii_cases c; intros _; reflexivity. Qed.

Lemma build_type_shape (bt : string) :
  In bt CmakeBuildTypes -> no_dash bt = true /\ no_newline bt = true /\ bt <> "".
Proof.
  intros [<- | [<- | [<- | [<- | []]]]]; repeat split; discriminate.
Qed.

(** X19: the directory that [build] names after a parsed version and an
    allowed build type matches the pattern by which [getInstalledVersions]
    recognises installed versions, with that build type as its group,
    exactly when the major version has one digit; from major 10 on an
    installed version is not recognised. *)
Theorem X19_installed_name_recognised (sys s : string) (v : LLVMVersionDetails)
    (bt : string) :
  fromVersionString sys s = Returned (Some v) ->
  In bt CmakeBuildTypes ->
  (major v < 10 -> re_match_group1 (__str__ v ++ "-" ++ bt) = Some bt)
  /\ (10 <= major v -> re_match_group1 (__str__ v ++ "-" ++ bt) = None).
Proof.
  intros H B. destruct (parsed_is_init _ _ _ H) as (_ & P0 & P1 & P26 & PR).
  destruct (build_type_shape bt B) as (BD & BN & BE).
  destruct (str_nonneg _ P0) as (c0 & r0 & E0 & D0 & A0 & V0).
  destruct (str_nonneg _ P1) as (c1 & r1 & E1 & D1 & A1 & V1).
  assert (T : exists tail, no_newline tail = true
                /\ __str__ v ++ "-" ++ bt
                   = String c0 (r0 ++ String "." (String c1 (tail ++ String "-" bt)))).
  { unfold __str__. rewrite E0, E1. destruct (revision v) as [r|].
    - destruct PR as [PR _]. destruct (str_nonneg _ PR) as (c2 & r2 & E2 & D2 & A2 & V2).
      rewrite E2. exists (r1 ++ String "." (String c2 r2)). split.
      + rewrite no_newline_app. cbn [no_newline].
        destruct (all_digits_no_dash_newline _ A1) as [_ ->].
        destruct (all_digits_no_dash_newline (String c2 r2)) as [_ N2];
          [simpl; now rewrite D2, A2|].
        simpl in N2. now rewrite N2.
      + repeat (rewrite ?append_assoc; cbn [append]). reflexivity.
    - exists r1. split; [apply (all_digits_no_dash_newline _ A1)|].
      repeat (rewrite ?append_assoc; cbn [append]). reflexivity. }
  destruct T as (tail & TN & ->).
  split; intros M.
  - assert (r0 = "").
    { assert (C : major v = 0 \/ major v = 1 \/ major v = 2 \/ major v = 3
                  \/ major v = 4 \/ major v = 5 \/ major v = 6 \/ major v = 7
                  \/ major v = 8 \/ major v = 9) by lia.
      repeat (destruct C as [C | C];
              [rewrite C in E0; vm_compute in E0; now inversion E0|]).
      rewrite C in E0; vm_compute in E0; now inversion E0. }
    subst r0. unfold re_match_group1. cbn [append]. rewrite D0.
    change (Ascii.eqb "." ".") with true. cbn [andb].
    rewrite line_no_newline.
    + apply after_last_dash_app; assumption.
    + cbn [no_newline]. rewrite no_newline_app. cbn [no_newline]. rewrite TN, BN.
      revert D1. clear. ascii_cases c1; intros _; reflexivity.
  - destruct r0 as [|c r].
    + exfalso. cbn [digits_value] in V0. pose proof (digit_value_small c0 D0). lia.
    + unfold re_match_group1. cbn [append]. rewrite D0. cbn [andb].
      cbn [all_digits] in A0. apply andb_true_iff in A0 as [Dc _].
      destruct (digit_not_special c Dc) as (_ & -> & _). reflexivity.
Qed.

(** * Runs of scripts *)

Lemma semits_srun {A : Type} (P : saction -> Prop) (w : sworld) (p : script A) :
  semits P p -> forall s, Forall P (fst (srun w s p)).
Proof.
  induction 1 as [a|e| |X c k Hc Hk IH]; intros s; cbn [srun]; try constructor.
  destruct (sanswer w X s c) as [r s'].
  specialize (IH r s'). destruct (srun w s' (k r)) as [t res].
  constructor; assumption.
Qed.

Lemma semits_sbind {A B : Type} (P : saction -> Prop) (p : script A)
    (f : A -> script B) :
  semits P p -> (forall a, semits P (f a)) -> semits P (sbind p f).
Proof.
  induction 1 as [a|e| |X c k Hc Hk IH]; intros Hf; cbn [sbind].
  - apply Hf.
  - constructor.
  - constructor.
  - constructor; [assumption | intros r; now apply IH].
Qed.

Lemma semits_do {X : Type} (P : saction -> Prop) (c : request X) :
  P (sact c) -> semits P (do c).
Proof. intros H. constructor; [assumption|]. intros [x|e]; constructor. Qed.

Lemma semits_catch {A : Type} (P : saction -> Prop) (p : script A)
    (h : exn -> script A) :
  semits P p -> (forall e, semits P (h e)) -> semits P (catch p h).
Proof.
  induction 1 as [a|e| |X c k Hc Hk IH]; intros Hh; cbn [catch].
  - constructor.
  - apply Hh.
  - constructor.
  - constructor; [assumption | intros r; now apply IH].
Qed.

Lemma semits_finally {A : Type} (P : saction -> Prop) (p : script A)
    (q : script unit) :
  semits P p -> semits P q -> semits P (finally p q).
Proof.
  induction 1 as [a|e| |X c k Hc Hk IH]; intros Hq; cbn [finally].
  - apply semits_sbind; [assumption | intros; constructor].
  - apply semits_sbind; [assumption | intros; constructor].
  - constructor.
  - constructor; [assumption | intros r; now apply IH].
Qed.

Lemma semits_sfor_each {A : Type} (P : saction -> Prop) (l : list A)
    (body : A -> script unit) :
  (forall x, In x l -> semits P (body x)) -> semits P (sfor_each l body).
Proof.
  induction l as [|x xs IH]; intros H; cbn [sfor_each]; [constructor|].
  apply semits_sbind; [apply H; now left|]. intros _. apply IH.
  intros y I. apply H. now right.
Qed.

Lemma semits_up {A : Type} (Q : action -> Prop) (P : saction -> Prop)
    (p : prog A) :
  (forall X (ev : event X), Q (act ev) -> P (sact (host ev))) ->
  emits Q p -> semits P (up p).
Proof.
  intros QP. induction 1 as [a|e|X ev k Hev Hk IH]; cbn [up]; constructor; auto.
Qed.

Lemma semits_weaken {A : Type} (P Q : saction -> Prop) (p : script A) :
  (forall a, P a -> Q a) -> semits P p -> semits Q p.
Proof.
  intros PQ. induction 1 as [a|e| |X c k Hc Hk IH]; constructor; auto.
Qed.

Lemma yields_srun {A : Type} (Q : A -> Prop) (w : sworld) (p : script A) :
  yields Q p ->
  forall s t a, srun w s p = (t, Some (Returned a)) -> Q a.
Proof.
  induction 1 as [a Ha|e| |X c k Hk IH]; intros s t b; cbn [srun].
  - intros E; inversion E; subst; assumption.
  - discriminate.
  - discriminate.
  - destruct (sanswer w X s c) as [r s'].
    destruct (srun w s' (k r)) as [t' res] eqn:E.
    intros F; inversion F; subst. eapply IH; eassumption.
Qed.

Lemma yields_sbind {A B : Type} (Q1 : A -> Prop) (Q2 : B -> Prop)
    (p : script A) (f : A -> script B) :
  yields Q1 p -> (forall a, Q1 a -> yields Q2 (f a)) -> yields Q2 (sbind p f).
Proof.
  induction 1 as [a Ha|e| |X c k Hk IH]; intros Hf; cbn [sbind].
  - now apply Hf.
  - constructor.
  - constructor.
  - constructor. intros r. now apply IH.
Qed.

Lemma yields_any {A : Type} (p : script A) : yields (fun _ => True) p.
Proof. induction p; constructor; auto. Qed.

Ltac semits_step :=
  match goal with
  | |- semits _ (sbind _ _) => apply semits_sbind; [|intros]
  | |- semits _ (do _) => apply semits_do
  | |- semits _ (Done _) => constructor
  | |- semits _ (Fail _) => constructor
  | |- semits _ Hang => constructor
  | |- semits _ (exit _) => constructor
  | |- semits _ (Do _ _) => constructor; [|intros]
  | |- semits _ (catch _ _) => apply semits_catch; [|intros]
  | |- semits _ (finally _ _) => apply semits_finally
  | |- semits _ (up (lift _)) => apply semits_up with (Q := fun _ => False);
                                 [intros; contradiction | apply emits_lift]
  | |- semits _ (if ?b then _ else _) => destruct b
  | |- semits _ (match ?x with _ => _ end) => destruct x
  end.

Lemma in_list_In (s : string) (l : list string) : in_list s l = true -> In s l.
Proof.
  unfold in_list. intros H. apply existsb_exists in H as (x & I & E).
  apply String.eqb_eq in E. now subst.
Qed.

Lemma getInstallationDir_reads (sys file : string) :
  semits (fun a => reads a = true) (getInstallationDir sys file).
Proof. unfold getInstallationDir. repeat semits_step; reflexivity. Qed.

Lemma installed_among_reads (items versions : list string) :
  semits (fun a => reads a = true) (installed_among items versions).
Proof.
  revert versions. induction items as [|item rest IH]; intros versions;
    cbn [installed_among]; [constructor|].
  repeat semits_step; try reflexivity; apply IH.
Qed.

Lemma getInstalledVersions_reads (sys file : string) :
  semits (fun a => reads a = true) (getInstalledVersions sys file).
Proof.
  unfold getInstalledVersions.
  apply semits_sbind; [apply getInstallationDir_reads|]. intros dir.
  apply semits_sbind; [apply semits_do; reflexivity|]. intros items.
  apply installed_among_reads.
Qed.

(** X20: [getInstalledVersions] only reads the host (the installation
    directory, its entries, their base names, whether they are
    directories), and every name it returns matches the pattern of an
    installed version with one of the four build types as its group. *)
Theorem X20_getInstalledVersions (w : sworld) (st : sstate w) (sys file : string) :
  Forall (fun a => reads a = true)
         (fst (srun w st (getInstalledVersions sys file)))
  /\ forall names,
       snd (srun w st (getInstalledVersions sys file)) = Some (Returned names) ->
       Forall (fun name => exists group1,
                   re_match_group1 name = Some group1
                   /\ In group1 CmakeBuildTypes) names.
Proof.
  split; [apply semits_srun, getInstalledVersions_reads|].
  intros names R.
  destruct (srun w st (getInstalledVersions sys file)) as [t r] eqn:E.
  cbn [snd] in R. subst r. revert E.
  apply (yields_srun
           (fun l => Forall (fun name => exists g, re_match_group1 name = Some g
                                                   /\ In g CmakeBuildTypes) l)).
  unfold getInstalledVersions.
  apply yields_sbind with (Q1 := fun _ => True); [apply yields_any|]. intros dir _.
  apply yields_sbind with (Q1 := fun _ => True); [apply yields_any|]. intros items _.
  assert (G : forall versions,
             Forall (fun name => exists g, re_match_group1 name = Some g
                                           /\ In g CmakeBuildTypes) versions ->
             yields (fun l => Forall (fun name => exists g,
                                          re_match_group1 name = Some g
                                          /\ In g CmakeBuildTypes) l)
                    (installed_among items versions)).
  { induction items as [|item rest IH]; intros versions V; cbn [installed_among].
    - now constructor.
    - unfold do. cbn [sbind]. constructor. intros [itemName|e]; [|constructor].
      cbn [sbind]. constructor. intros [isdir|e]; [|constructor].
      cbn [sbind]. destruct isdir; cbn [andb]; [|now apply IH].
      destruct (re_match_group1 itemName) as [g|] eqn:M; [|now apply IH].
      destruct (in_list g CmakeBuildTypes) eqn:I; [|now apply IH].
      apply IH. apply Forall_app. split; [assumption|].
      constructor; [|constructor]. exists g. split; [assumption|].
      now apply in_list_In. }
  apply G. constructor.
Qed.

(** X21: on a host other than Windows, [removeLibraryVersion] deletes the
    directory of the version and build type under [/usr/local/llvm] and
    nothing else; it prints that it did only when the deletion succeeded,
    and passes the exception on when it did not. *)
Theorem X21_removeLibraryVersion (w : sworld) (st : sstate w)
    (sys sep file llvmVersion buildType : string) :
  sys <> "Windows" ->
  let libraryDir := "/usr/local/llvm" ++ sep ++ llvmVersion ++ "-" ++ buildType in
  let r := srun w st (removeLibraryVersion sys sep file llvmVersion buildType) in
  match fst (sanswer w unit st (host (shutil_rmtree libraryDir false))) with
  | Raised e => r = ([sact (host (shutil_rmtree libraryDir false))],
                     Some (Raised e))
  | Returned _ =>
      exists outcome,
        r = ([sact (host (shutil_rmtree libraryDir false));
              sact (host (print ("Removed `" ++ libraryDir ++ "`.")))],
             Some outcome)
  end.
Proof.
  intros NW libraryDir r. subst r. apply String.eqb_neq in NW.
  unfold removeLibraryVersion, getInstallationDir, Windows. rewrite NW.
  cbn [sbind do srun]. fold libraryDir.
  destruct (sanswer w unit st (host (shutil_rmtree libraryDir false)))
    as [[[]|e] s1]; cbn [fst sbind srun]; [|reflexivity].
  cbn [do srun].
  match goal with
  | |- context [sanswer w unit s1 ?c] =>
      destruct (sanswer w unit s1 c) as [[[]|e] s2]; cbn [srun]; eauto
  end.
Qed.

Lemma X21_removeLibraryVersion_witness :
  exists outcome,
    srun scalm tt
         (removeLibraryVersion "Linux" "/" "/opt/llvm-select.py" "3.4.1" "Release")
    = ([sact (host (shutil_rmtree "/usr/local/llvm/3.4.1-Release" false));
        sact (host (print "Removed `/usr/local/llvm/3.4.1-Release`."))],
       Some outcome).
Proof.
  exact (X21_removeLibraryVersion scalm tt "Linux" "/" "/opt/llvm-select.py"
           "3.4.1" "Release" ltac:(discriminate)).
Defined.

Lemma semits_sbind_lift {A B : Type} (P : saction -> Prop) (r : pyresult A)
    (f : A -> script B) :
  (forall a, r = Returned a -> semits P (f a)) ->
  semits P (sbind (up (lift r)) f).
Proof. intros H. destruct r as [a|e]; cbn [lift up sbind]; [now apply H | constructor]. Qed.




Lemma top_level_emits (sys : string) (v : LLVMVersionDetails) (n : nat) :
  Windows sys = true ->
  forall rootDir, semits (download_call sys v) (top_level n rootDir).
Proof.
  intros W. induction n as [|n IH]; intros rootDir; cbn [top_level];
    [constructor|].
  apply semits_sbind; [apply semits_do; exact W|]. intros parent.
  destruct (String.eqb parent ""); [constructor|].
  apply semits_sbind; [apply semits_do; exact W|]. intros parent'. apply IH.
Qed.

Lemma runOrFail_download_call (sys : string) (v : LLVMVersionDetails)
    (c : list string) (showOutput : bool) :
  curl_of v c \/ (Windows sys = false /\ untar_of v c) ->
  semits (download_call sys v)
         (up (runOrFail c None None None showOutput false)).
Proof.
  intros H.
  apply semits_up
    with (Q := fun a => popen_command a = Some c \/ printed a <> None).
  - intros X ev [C | Pr]; destruct ev; cbn in *; try discriminate; auto;
      solve [inversion C; subst; exact H | exfalso; now apply Pr].
  - apply emits_runOrFail; [left; reflexivity | intros; right; discriminate].
Qed.

Lemma _downloadAndUnpackTarball_emits (sys : string) (n : nat)
    (v : LLVMVersionDetails) (name here0 : string) (cleanup showProgress : bool) :
  semits (download_call sys v)
         (_downloadAndUnpackTarball sys n v name (here0 ++ "/" ++ name ++ "-src")
                                    cleanup showProgress).
Proof.
  unfold _downloadAndUnpackTarball.
  apply semits_sbind_lift. intros url U.
  apply semits_sbind; [apply semits_do; exact I|]. intros here.
  apply semits_sbind_lift. intros file F.
  destruct file as [f|]; cbn [sbind]; [|constructor].
  destruct url as [u|]; cbn [sbind]; [|constructor].
  apply semits_sbind.
  { apply runOrFail_download_call. left. now exists name, u, f, here. }
  intros _. apply semits_sbind.
  - destruct (Windows sys) eqn:W.
    + apply semits_sbind; [apply semits_do; exact W|]. intros _.
      apply semits_finally; [|apply semits_do; exact W].
      apply semits_sbind; [apply semits_do; exact W|]. intros names.
      apply semits_sbind; [destruct names; constructor|]. intros rootDir.
      apply semits_sbind; [now apply top_level_emits|]. intros top.
      apply semits_sbind; [apply semits_do; exact W|]. intros _.
      apply semits_sbind; [apply semits_do; exact I|]. intros here1.
      apply semits_do. right. split; [exact W|]. now exists here0, name.
    + apply semits_sbind.
      * apply semits_do. split; [exact W|]. now exists here0, name.
      * intros _. apply runOrFail_download_call. right. split; [exact W|].
        now exists name, f, here, here0.
  - intros _. destruct cleanup; [|constructor].
    apply semits_do. now exists name, f, here.
Qed.

Lemma download_emits (sys : string) (n : nat) (v : LLVMVersionDetails)
    (showProgress : bool) :
  semits (download_call sys v) (download sys n v showProgress).
Proof.
  assert (R : forall name sub,
             In (name, sub) [("clang", "tools/clang");
                             ("compiler-rt", "projects/compiler-rt");
                             ("libcxx", "projects/libcxx")] ->
             semits (download_call sys v)
                    (src <<- do (host os_getcwd) ;;
                     dst <<- do (host os_getcwd) ;;
                     do (shutil_move (src ++ "/" ++ name ++ "-src")
                                     (dst ++ "/llvm-src/" ++ sub)))).
  { intros name sub I0.
    apply semits_sbind; [apply semits_do; exact I|]. intros src.
    apply semits_sbind; [apply semits_do; exact I|]. intros dst.
    apply semits_do. left. now exists src, dst, name, sub. }
  unfold download. apply semits_sbind.
  - apply semits_sfor_each. intros name _.
    apply semits_sbind_lift. intros [base|] _; [|constructor].
    apply semits_sbind; [apply semits_do; exact I|]. intros here.
    apply _downloadAndUnpackTarball_emits.
  - intros _.
    apply semits_sbind; [apply semits_do; exact I|]. intros src.
    apply semits_sbind; [apply semits_do; exact I|]. intros dst.
    apply semits_sbind.
    { apply semits_do. left. exists src, dst, "clang", "tools/clang".
      cbn. auto. }
    intros _. apply semits_sbind_lift. intros rt _. apply semits_sbind.
    { destruct rt; [|constructor].
      apply (R "compiler-rt" "projects/compiler-rt"). cbn. auto. }
    intros _. apply semits_sbind_lift. intros cxx _.
    destruct cxx; [|constructor].
    apply (R "libcxx" "projects/libcxx"). cbn. auto.
Qed.

(** X23: what [download] does on a host.  Every command it runs fetches the
    archive of a role from the URL of that role, or, except on Windows,
    unpacks such an archive into the [-src] directory of its role; every
    file it deletes is such an archive; it never deletes a directory; and
    except on Windows every move puts an unpacked tree at its place in the
    tree of llvm. *)
Theorem X23_download_calls (w : sworld) (st : sstate w) (sys : string)
    (n : nat) (v : LLVMVersionDetails) (showProgress : bool) :
  Forall (fun a =>
            (forall c, scommand a = Some c ->
                       curl_of v c \/ (sys <> "Windows" /\ untar_of v c))
            /\ (forall path, unlink_of a = Some path -> archive_path v path)
            /\ rmtree_of a = None
            /\ (sys <> "Windows" ->
                forall src dst, moved a = Some (src, dst) -> relocation src dst))
         (fst (srun w st (download sys n v showProgress))).
Proof.
  apply semits_srun.
  apply semits_weaken with (2 := download_emits sys n v showProgress).
  intros [X c] D. unfold download_call in D. cbn [projT2] in D.
  assert (NW : Windows sys = false -> sys <> "Windows")
    by (intros W; now apply String.eqb_neq).
  assert (WN : sys <> "Windows" -> Windows sys = true -> False).
  { intros N W. apply String.eqb_eq in W. contradiction. }
  destruct c as [Y ev| | | | | | | | | | | | ];
    try destruct ev; cbn; repeat split; intros; try discriminate;
    try contradiction;
    try match goal with
        | E : Some _ = Some _ |- _ => inversion E; subst; clear E
        end; try assumption.
  - destruct D as [C | [W U]]; auto.
  - destruct D as [R | [W _]]; [assumption | exfalso; eauto].
Qed.

(** * The entry point *)

Lemma main_valid (args : Namespace) :
  in_list (buildtype args) CmakeBuildTypes = true ->
  up (main (fun _ => Ret tt) args) = Done tt.
Proof. intros V. unfold main. rewrite V. reflexivity. Qed.

(** X24: when the build type is allowed and the listing is not asked for, a
    version that is missing or that the parser rejects is reported by one
    printed line, and the script ends there: it exits with status 1 when
    the line was printed, and has made no other call. *)
Theorem X24_bad_version_reported (w : sworld) (st : sstate w)
    (sys sep file : string) (n : nat) (args : Namespace) :
  in_list (buildtype args) CmakeBuildTypes = true ->
  list_ args = false ->
  fromVersionString sys (version args) = Returned None ->
  let message :=
    if String.eqb (version args) ""
    then "Error: you must specify an LLVM version."
    else "Error: unsupported LLVM version " ++ dquote ++ version args
           ++ dquote ++ "." in
  exists e,
    srun w st (__main__ sys sep file n args)
    = ([sact (host (print message))], Some (Raised e))
    /\ (sprints_succeed w -> e = SystemExit 1).
Proof.
  intros V L P message. subst message.
  unfold __main__. rewrite (main_valid args V). cbn [sbind].
  unfold select. rewrite P, L. cbn [lift up sbind negb andb is_None].
  destruct (String.eqb (version args) ""); cbn [sbind do srun exit];
    match goal with
    | |- context [sanswer w unit st ?c] =>
        destruct (sanswer w unit st c) as [[[]|e] s1] eqn:A
    end; cbn [sbind srun]; eexists; (split; [reflexivity|]); intros Q;
    try reflexivity;
    match type of A with
    | sanswer _ _ _ (host (print ?m)) = _ =>
        specialize (Q st m); rewrite A in Q; discriminate Q
    end.
Qed.

Lemma X24_bad_version_reported_witness :
  exists e,
    srun scalm tt
         (__main__ "Linux" "/" "/opt/llvm-select.py" 8
                   {| list_ := false; remove := false; install := true;
                      no_cleanup := false; version := "3.4.1.2";
                      buildtype := "Release" |})
    = ([sact (host (print ("Error: unsupported LLVM version " ++ dquote
                             ++ "3.4.1.2" ++ dquote ++ ".")))],
       Some (Raised e))
    /\ (sprints_succeed scalm -> e = SystemExit 1).
Proof.
  exact (X24_bad_version_reported scalm tt "Linux" "/" "/opt/llvm-select.py" 8
           {| list_ := false; remove := false; install := true;
              no_cleanup := false; version := "3.4.1.2";
              buildtype := "Release" |} eq_refl eq_refl eq_refl).
Defined.

(** X25: with an allowed build type, the listing only reads the host and
    prints, whatever the version argument is: it changes nothing. *)
Theorem X25_listing_only_reads (w : sworld) (st : sstate w)
    (sys sep file : string) (n : nat) (args : Namespace) :
  in_list (buildtype args) CmakeBuildTypes = true ->
  list_ args = true ->
  Forall (fun a => reads a = true \/ sprinted a <> None)
         (fst (srun w st (__main__ sys sep file n args))).
Proof.
  intros V L. apply semits_srun.
  unfold __main__. rewrite (main_valid args V). cbn [sbind].
  unfold select. rewrite L. cbn [negb andb].
  apply semits_sbind_lift. intros parsed _. cbn [sbind].
  apply semits_sbind.
  - eapply semits_weaken; [|apply getInstalledVersions_reads]. intros a R; now left.
  - intros versions. repeat semits_step; right; discriminate.
Qed.

Lemma X25_listing_only_reads_witness :
  Forall (fun a => reads a = true \/ sprinted a <> None)
         (fst (srun scalm tt
                    (__main__ "Linux" "/" "/opt/llvm-select.py" 8
                              {| list_ := true; remove := false; install := false;
                                 no_cleanup := false; version := "hg";
                                 buildtype := "Release" |}))).
Proof.
  exact (X25_listing_only_reads scalm tt "Linux" "/" "/opt/llvm-select.py" 8
           {| list_ := true; remove := false; install := false;
              no_cleanup := false; version := "hg"; buildtype := "Release" |}
           eq_refl eq_refl).
Defined.

(** X26: the activation of a version and build type that the listing does
    not contain prints one line and ends there, with exit status 1 when the
    line was printed: no link is removed or made. *)
Theorem X26_activation_needs_installed (w : sworld) (st : sstate w)
    (sys file : string) (parsed : option LLVMVersionDetails)
    (args : Namespace) (installed : list string) :
  in_list (str_version parsed ++ "-" ++ buildtype args) installed = false ->
  exists e,
    srun w st (activate sys file parsed args installed)
    = ([sact (host (print "Error: the specified library version is not currently installed."))],
       Some (Raised e))
    /\ (sprints_succeed w -> e = SystemExit 1).
Proof.
  intros N. unfold activate. rewrite N. cbn [negb sbind do srun exit].
  match goal with
  | |- context [sanswer w unit st ?c] =>
      destruct (sanswer w unit st c) as [[[]|e] s1] eqn:A
  end; cbn [sbind srun]; eexists; (split; [reflexivity|]); intros Q;
    [reflexivity|].
  match type of A with
  | sanswer _ _ _ (host (print ?m)) = _ =>
      specialize (Q st m); rewrite A in Q; discriminate Q
  end.
Qed.

Lemma X26_activation_needs_installed_witness :
  exists e,
    srun scalm tt
         (activate "Linux" "/opt/llvm-select.py"
                   (Some (__init__ "Linux" 3 4 (Some 1)))
                   {| list_ := false; remove := false; install := false;
                      no_cleanup := false; version := "3.4.1";
                      buildtype := "Release" |}
                   ["3.4.1-Debug"; "3.5.0-Release"])
    = ([sact (host (print "Error: the specified library version is not currently installed."))],
       Some (Raised e))
    /\ (sprints_succeed scalm -> e = SystemExit 1).
Proof.
  exact (X26_activation_needs_installed scalm tt "Linux" "/opt/llvm-select.py"
           (Some (__init__ "Linux" 3 4 (Some 1)))
           {| list_ := false; remove := false; install := false;
              no_cleanup := false; version := "3.4.1"; buildtype := "Release" |}
           ["3.4.1-Debug"; "3.5.0-Release"] eq_refl).
Defined.

Lemma verify_emits (sys : string) :
  emits (fun a => removal a = None) (verifyBuildPrerequisitesMet sys).
Proof.
  unfold verifyBuildPrerequisitesMet, errorIfNotAvailable.
  repeat first [apply emits_commandSucceeded; reflexivity | emits_step].
Qed.

(** X27: an installation asked with [--no-cleanup] never deletes a
    directory, and the only files it deletes are the archives it has
    downloaded. *)
Theorem X27_install_no_cleanup (w : sworld) (st : sstate w)
    (sys sep file : string) (n : nat) (args : Namespace)
    (v : LLVMVersionDetails) :
  list_ args = false -> remove args = false -> install args = true ->
  no_cleanup args = true ->
  fromVersionString sys (version args) = Returned (Some v) ->
  Forall (fun a => rmtree_of a = None
                   /\ forall path, unlink_of a = Some path -> archive_path v path)
         (fst (srun w st (__main__ sys sep file n args))).
Proof.
  intros L R I0 NC P. apply semits_srun.
  set (Q := fun a : saction =>
              rmtree_of a = None
              /\ forall path, unlink_of a = Some path -> archive_path v path).
  assert (PR : forall line, Q (sact (host (print line))))
    by (intros; split; [reflexivity | discriminate]).
  assert (UP : forall A (p : prog A), emits (fun a => removal a = None) p ->
                                      semits Q (up p)).
  { intros A p. apply semits_up. intros X ev E.
    destruct ev; cbn in E; try discriminate; split; try reflexivity; discriminate. }
  unfold __main__. apply semits_sbind.
  { apply UP. unfold main, sys_exit.
    destruct (negb _); [repeat emits_step; reflexivity | constructor]. }
  intros _. unfold select. rewrite P, L, R, I0, NC.
  cbn [lift up sbind negb andb is_None].
  apply semits_sbind; [repeat semits_step; apply PR|]. intros _.
  apply semits_finally; [|constructor].
  apply semits_catch.
  - apply semits_sbind; [apply UP, verify_emits|]. intros _.
    apply semits_sbind.
    { eapply semits_weaken; [|apply download_emits].
      intros [X c] D. unfold download_call in D. cbn [projT2] in D.
      destruct c as [Y ev| | | | | | | | | | | | ]; try destruct ev;
        split; try reflexivity; try discriminate; try contradiction.
      intros q E. inversion E; subst. exact D. }
    intros _. apply semits_sbind.
    { eapply semits_weaken; [|apply getInstallationDir_reads].
      intros [X c] Rd. destruct c as [Y ev| | | | | | | | | | | | ];
        try destruct ev; cbn in Rd; try discriminate;
        split; try reflexivity; discriminate. }
    intros root. apply semits_sbind; [apply UP, build_no_cleanup_emits|].
    intros installDir. apply semits_do, PR.
  - intros e. destruct e; repeat semits_step; try apply PR;
      split; try reflexivity; discriminate.
Qed.

(** * Instances *)

Lemma X12_removeIfExists_witness :
  run calm tt (removeIfExists "Linux" "/work/llvm-src")
  = ([act (os_path_lexists "/work/llvm-src")], Returned tt).
Proof.
  exact (proj2 (X12_removeIfExists calm tt "Linux" "/work/llvm-src") eq_refl).
Defined.

Lemma X19_installed_name_recognised_witness :
  re_match_group1 "3.4.1-Release" = Some "Release"
  /\ re_match_group1 "10.0.0-Release" = None.
Proof.
  split.
  - refine (proj1 (X19_installed_name_recognised "Linux" "3.4.1"
                     (__init__ "Linux" 3 4 (Some 1)) "Release" eq_refl _) _).
    + now left.
    + reflexivity.
  - refine (proj2 (X19_installed_name_recognised "Linux" "10.0.0"
                     (__init__ "Linux" 10 0 (Some 0)) "Release" eq_refl _) _).
    + now left.
    + discriminate.
Defined.

Lemma X20_getInstalledVersions_witness :
  snd (srun stocked tt (getInstalledVersions "Linux" "/opt/llvm-select.py"))
  = Some (Returned ["3.4.1-Release"])
  /\ Forall (fun name => exists group1,
                 re_match_group1 name = Some group1
                 /\ In group1 CmakeBuildTypes) ["3.4.1-Release"].
Proof.
  split; [reflexivity|].
  exact (proj2 (X20_getInstalledVersions stocked tt "Linux" "/opt/llvm-select.py")
           ["3.4.1-Release"] eq_refl).
Defined.

Lemma X27_install_no_cleanup_witness :
  Forall (fun a => rmtree_of a = None
                   /\ forall path, unlink_of a = Some path ->
                                   archive_path (__init__ "Linux" 3 4 (Some 1)) path)
         (fst (srun scalm tt
                    (__main__ "Linux" "/" "/opt/llvm-select.py" 8
                              {| list_ := false; remove := false; install := true;
                                 no_cleanup := true; version := "3.4.1";
                                 buildtype := "Release" |}))).
Proof.
  exact (X27_install_no_cleanup scalm tt "Linux" "/" "/opt/llvm-select.py" 8
           {| list_ := false; remove := false; install := true;
              no_cleanup := true; version := "3.4.1"; buildtype := "Release" |}
           (__init__ "Linux" 3 4 (Some 1)) eq_refl eq_refl eq_refl eq_refl eq_refl).
Defined.

Example install_on_a_calm_host :
  flat_map (fun a => match scommand a with Some c => [c] | None => [] end)
           (fst (srun scalm tt
                      (__main__ "Linux" "/" "/opt/llvm-select.py" 8
                                {| list_ := false; remove := false; install := true;
                                   no_cleanup := true; version := "2.9";
                                   buildtype := "Release" |})))
  = [["curl"; "--version"]; ["cmake"; "--version"]; ["tar"; "--version"];
     ["curl"; "-f"; "http://llvm.org/releases/2.9/llvm-2.9.tgz"; "-o";
      "/work/llvm-2.9.tgz"];
     ["tar"; "-xvf"; "/work/llvm-2.9.tgz"; "-C"; "/work/llvm-src";
      "--strip-components=1"];
     ["curl"; "-f"; "http://llvm.org/releases/2.9/clang-2.9.tgz"; "-o";
      "/work/clang-2.9.tgz"];
     ["tar"; "-xvf"; "/work/clang-2.9.tgz"; "-C"; "/work/clang-src";
      "--strip-components=1"];
     ["ninja"; "--version"];
     ["cmake"; "-DCMAKE_INSTALL_PREFIX=/usr/local/llvm/2.9-Release";
      "-DCMAKE_BUILD_TYPE=Release"; "-DLLVM_ENABLE_EH=true";
      "-DLLVM_ENABLE_RTTI=true"; "-DLLVM_INCLUDE_TESTS=false"; "-G";
      "Ninja"; ".."];
     ["cmake"; "--build"; "."];
     ["cmake"; "--build"; "."; "--target"; "install"]].
Proof. reflexivity. Qed.

(** * Termination *)

Lemma halts_srun {A : Type} (w : sworld) (p : script A) :
  halts p -> forall s, snd (srun w s p) <> None.
Proof.
  induction 1 as [a|e|X c k Hk IH]; intros s; cbn [srun]; try discriminate.
  destruct (sanswer w X s c) as [r s']. specialize (IH r s').
  destruct (srun w s' (k r)) as [t res]. exact IH.
Qed.

Lemma halts_sbind {A B : Type} (p : script A) (f : A -> script B) :
  halts p -> (forall a, halts (f a)) -> halts (sbind p f).
Proof.
  induction 1 as [a|e|X c k Hk IH]; intros Hf; cbn [sbind];
    [apply Hf | constructor | constructor; intros r; now apply IH].
Qed.

Lemma halts_do {X : Type} (c : request X) : halts (do c).
Proof. constructor. intros [x|e]; constructor. Qed.

Lemma halts_up {A : Type} (p : prog A) : halts (up p).
Proof. induction p; cbn [up]; constructor; auto. Qed.

Lemma halts_catch {A : Type} (p : script A) (h : exn -> script A) :
  halts p -> (forall e, halts (h e)) -> halts (catch p h).
Proof.
  induction 1 as [a|e|X c k Hk IH]; intros Hh; cbn [catch];
    [constructor | apply Hh | constructor; intros r; now apply IH].
Qed.

Lemma halts_finally {A : Type} (p : script A) (q : script unit) :
  halts p -> halts q -> halts (finally p q).
Proof.
  induction 1 as [a|e|X c k Hk IH]; intros Hq; cbn [finally].
  - apply halts_sbind; [assumption | intros; constructor].
  - apply halts_sbind; [assumption | intros; constructor].
  - constructor. intros r. now apply IH.
Qed.

Lemma halts_sfor_each {A : Type} (l : list A) (body : A -> script unit) :
  (forall x, halts (body x)) -> halts (sfor_each l body).
Proof.
  intros H. induction l as [|x xs IH]; cbn [sfor_each]; [constructor|].
  apply halts_sbind; [apply H | intros _; exact IH].
Qed.

Lemma halts_installed_among (items versions : list string) :
  halts (installed_among items versions).
Proof.
  revert versions. induction items as [|item rest IH]; intros versions;
    cbn [installed_among]; [constructor|].
  apply halts_sbind; [apply halts_do|]. intros itemName.
  apply halts_sbind; [apply halts_do|]. intros isdir.
  destruct (isdir && _); apply IH.
Qed.

Ltac halts_step :=
  match goal with
  | |- halts (sbind _ _) => apply halts_sbind; [|intros]
  | |- halts (do _) => apply halts_do
  | |- halts (up _) => apply halts_up
  | |- halts (installed_among _ _) => apply halts_installed_among
  | |- halts (sfor_each _ _) => apply halts_sfor_each; intros
  | |- halts (catch _ _) => apply halts_catch; [|intros]
  | |- halts (finally _ _) => apply halts_finally
  | |- halts (Done _) => constructor
  | |- halts (Fail _) => constructor
  | |- halts (exit _) => constructor
  | |- halts (if ?b then _ else _) => destruct b
  | |- halts (match ?x with _ => _ end) => destruct x
  end.

(** X28: on a host other than Windows the script has no loop of its own
    that may fail to end: whatever the answers of the host and whatever the
    fuel, a run ends, by returning or by an exception. *)
Theorem X28_posix_run_ends (w : sworld) (st : sstate w)
    (sys sep file : string) (n : nat) (args : Namespace) :
  sys <> "Windows" ->
  snd (srun w st (__main__ sys sep file n args)) <> None.
Proof.
  intros NW. apply String.eqb_neq in NW. apply halts_srun.
  unfold __main__, select, activate, getInstalledVersions, removeLibraryVersion,
    setActiveLibraryVersion, getInstallationDir, download,
    _downloadAndUnpackTarball, Windows.
  rewrite NW. repeat halts_step.
Qed.

Lemma X28_posix_run_ends_witness :
  snd (srun scalm tt
            (__main__ "Linux" "/" "/opt/llvm-select.py" 0
                      {| list_ := false; remove := false; install := true;
                         no_cleanup := false; version := "3.9.0";
                         buildtype := "Release" |})) <> None.
Proof.
  exact (X28_posix_run_ends scalm tt "Linux" "/" "/opt/llvm-select.py" 0
           {| list_ := false; remove := false; install := true;
              no_cleanup := false; version := "3.9.0"; buildtype := "Release" |}
           ltac:(discriminate)).
Defined.
